(** * ProspectAI: plan entitlement and usage gating

    A shallow embedding of the client-side gating code of ProspectAI:

    - [UpgradeStore]  : stores/upgradeStore.ts (the upgrade-modal store, the
      reason-to-plan table, [getNextPlan], [getSuggestedPlan]);
    - [PlanLimits]    : hooks/usePlanLimits.ts (the quota and feature gates);
    - [Api]           : lib/api.ts (classification of a 403 rejection and the
      response interceptor's effect on the upgrade store);
    - [PlanCatalog]   : the [plans] table of the plan-selection modal.

    JavaScript strings are modelled as [string] (the UTF-8 bytes of the
    text), JavaScript numbers that carry counters and limits as [Z],
    [null]/[undefined] as [None].  The zustand store is modelled by explicit
    state passing: an action is a function [UpgradeState -> UpgradeState]. *)

From Stdlib Require Import ZArith List String Ascii Bool Lia.
Import ListNotations.

Open Scope string_scope.
Open Scope Z_scope.

(** ** JavaScript helpers shared by the modules *)

Module Js.

(** [Array.prototype.indexOf] on an array of strings: the position of the
    first element strictly equal to [x], or [-1]. *)
Fixpoint indexOf_from (x : string) (l : list string) (i : Z) : Z :=
  match l with
  | [] => -1
  | y :: l' => if String.eqb y x then i else indexOf_from x l' (i + 1)
  end.

Definition indexOf (x : string) (l : list string) : Z := indexOf_from x l 0.

(** Truthiness of a string: only the empty string is falsy. *)
Definition truthy_string (s : string) : bool := negb (String.eqb s "").

(** [a || b] where [a] is a possibly undefined string. *)
Definition or_else (a : option string) (b : string) : string :=
  match a with
  | Some s => if truthy_string s then s else b
  | None => b
  end.

(** [String.prototype.includes]: [kw] occurs in [s] as a contiguous run. *)
Fixpoint includes (s kw : string) : bool :=
  if String.prefix kw s then true
  else match s with
       | EmptyString => false
       | String _ s' => includes s' kw
       end.

(** [s.charAt(0)] and [s.slice(1)]. *)
Definition charAt0 (s : string) : string :=
  match s with
  | EmptyString => EmptyString
  | String c _ => String c EmptyString
  end.

Definition slice1 (s : string) : string :=
  match s with
  | EmptyString => EmptyString
  | String _ s' => s'
  end.

(** The values a field of the usage snapshot can hold, and their
    truthiness. *)
Inductive value : Type :=
| VString (s : string)
| VNumber (n : Z)
| VBoolean (b : bool).

Definition truthy (v : value) : bool :=
  match v with
  | VString s => truthy_string s
  | VNumber n => negb (n =? 0)
  | VBoolean b => b
  end.

End Js.

(** ** stores/upgradeStore.ts *)

Module UpgradeStore.

Inductive UpgradeReason : Type :=
| leads_limit
| agents_limit
| campaigns_limit
| whatsapp
| whatsapp_official
| advanced_filters
| funnel_reports
| campaign_comparison
| crm_integration
| priority_support
| sso
| general.

Record UpgradeContext : Type := mkUpgradeContext {
  reason : UpgradeReason;
  currentValue : option Z;
  limitValue : option Z;
  featureName : option string;
  suggestedPlan : option string;
  customMessage : option string
}.

Record UpgradeState : Type := mkUpgradeState {
  isOpen : bool;
  context : option UpgradeContext
}.

(** The four tiers, in the order of [planOrder]. *)
Inductive PlanTier : Type := free | starter | pro | scale.

Definition tier_id (t : PlanTier) : string :=
  match t with
  | free => "free"
  | starter => "starter"
  | pro => "pro"
  | scale => "scale"
  end.

Definition MINIMUM_PLAN_FOR_FEATURE (r : UpgradeReason) : string :=
  match r with
  | leads_limit => "starter"
  | agents_limit => "starter"
  | campaigns_limit => "starter"
  | whatsapp => "starter"
  | whatsapp_official => "pro"
  | advanced_filters => "starter"
  | funnel_reports => "starter"
  | campaign_comparison => "pro"
  | crm_integration => "pro"
  | priority_support => "scale"
  | sso => "scale"
  | general => "starter"
  end.

Definition planOrder : list string := ["free"; "starter"; "pro"; "scale"].

(** Position of a plan name in [planOrder] ([-1] for an unknown name). *)
Definition ordinal (p : string) : Z := Js.indexOf p planOrder.

Definition getNextPlan (currentPlan : string) : option string :=
  let currentIndex := Js.indexOf currentPlan planOrder in
  if (currentIndex =? -1) || (currentIndex >=? Z.of_nat (List.length planOrder) - 1)
  then None
  else nth_error planOrder (Z.to_nat (currentIndex + 1)).

Definition getSuggestedPlan (currentPlan : string) (r : UpgradeReason) : string :=
  let nextPlan := getNextPlan currentPlan in
  let minimumPlan := MINIMUM_PLAN_FOR_FEATURE r in
  match nextPlan with
  | None => "scale"
  | Some nextPlan =>
      if negb (Js.truthy_string nextPlan) then "scale"
      else
        let nextPlanIndex := Js.indexOf nextPlan planOrder in
        let minimumPlanIndex := Js.indexOf minimumPlan planOrder in
        if nextPlanIndex >=? minimumPlanIndex then nextPlan else minimumPlan
  end.

(** The store.  Every action of the source passes both [isOpen] and
    [context] to [set], so the new state does not depend on the old one. *)
Definition initialState : UpgradeState :=
  {| isOpen := false; context := None |}.

Definition openUpgradeModal (ctx : UpgradeContext) (st : UpgradeState) : UpgradeState :=
  {| isOpen := true;
     context := Some {| reason := reason ctx;
                        currentValue := currentValue ctx;
                        limitValue := limitValue ctx;
                        featureName := featureName ctx;
                        suggestedPlan :=
                          Some (Js.or_else (suggestedPlan ctx)
                                  (MINIMUM_PLAN_FOR_FEATURE (reason ctx)));
                        customMessage := customMessage ctx |} |}.

Definition closeUpgradeModal (st : UpgradeState) : UpgradeState :=
  {| isOpen := false; context := None |}.

Definition showLeadsLimitReached (used limit : Z) (st : UpgradeState) : UpgradeState :=
  {| isOpen := true;
     context := Some {| reason := leads_limit;
                        currentValue := Some used;
                        limitValue := Some limit;
                        featureName := None;
                        suggestedPlan := Some "starter";
                        customMessage := None |} |}.

Definition showAgentsLimitReached (used limit : Z) (st : UpgradeState) : UpgradeState :=
  {| isOpen := true;
     context := Some {| reason := agents_limit;
                        currentValue := Some used;
                        limitValue := Some limit;
                        featureName := None;
                        suggestedPlan := Some "pro";
                        customMessage := None |} |}.

Definition showCampaignsLimitReached (used limit : Z) (st : UpgradeState) : UpgradeState :=
  {| isOpen := true;
     context := Some {| reason := campaigns_limit;
                        currentValue := Some used;
                        limitValue := Some limit;
                        featureName := None;
                        suggestedPlan := Some "starter";
                        customMessage := None |} |}.

Definition showFeatureRequired (name plan : string) (st : UpgradeState) : UpgradeState :=
  {| isOpen := true;
     context := Some {| reason := general;
                        currentValue := None;
                        limitValue := None;
                        featureName := Some name;
                        suggestedPlan := Some plan;
                        customMessage := None |} |}.

End UpgradeStore.

(** ** hooks/usePlanLimits.ts *)

Module PlanLimits.

Record UsageLimits : Type := mkUsageLimits {
  plan_tier : string;
  leads_limit : Z;
  leads_used : Z;
  leads_remaining : Z;
  agents_limit : Z;
  agents_used : Z;
  agents_remaining : Z;
  campaigns_limit : Z;
  campaigns_used : Z;
  campaigns_remaining : Z;
  whatsapp_enabled : bool;
  whatsapp_official_api : bool;
  advanced_filters : bool;
  funnel_reports : bool;
  campaign_comparison : bool;
  crm_integration : bool;
  priority_support : bool;
  sso : bool
}.

(** [keyof UsageLimits]. *)
Inductive UsageKey : Type :=
| K_plan_tier
| K_leads_limit | K_leads_used | K_leads_remaining
| K_agents_limit | K_agents_used | K_agents_remaining
| K_campaigns_limit | K_campaigns_used | K_campaigns_remaining
| K_whatsapp_enabled | K_whatsapp_official_api | K_advanced_filters
| K_funnel_reports | K_campaign_comparison | K_crm_integration
| K_priority_support | K_sso.

(** [usageLimits[feature]]. *)
Definition get (u : UsageLimits) (k : UsageKey) : Js.value :=
  match k with
  | K_plan_tier => Js.VString (plan_tier u)
  | K_leads_limit => Js.VNumber (leads_limit u)
  | K_leads_used => Js.VNumber (leads_used u)
  | K_leads_remaining => Js.VNumber (leads_remaining u)
  | K_agents_limit => Js.VNumber (agents_limit u)
  | K_agents_used => Js.VNumber (agents_used u)
  | K_agents_remaining => Js.VNumber (agents_remaining u)
  | K_campaigns_limit => Js.VNumber (campaigns_limit u)
  | K_campaigns_used => Js.VNumber (campaigns_used u)
  | K_campaigns_remaining => Js.VNumber (campaigns_remaining u)
  | K_whatsapp_enabled => Js.VBoolean (whatsapp_enabled u)
  | K_whatsapp_official_api => Js.VBoolean (whatsapp_official_api u)
  | K_advanced_filters => Js.VBoolean (advanced_filters u)
  | K_funnel_reports => Js.VBoolean (funnel_reports u)
  | K_campaign_comparison => Js.VBoolean (campaign_comparison u)
  | K_crm_integration => Js.VBoolean (crm_integration u)
  | K_priority_support => Js.VBoolean (priority_support u)
  | K_sso => Js.VBoolean (sso u)
  end.

(** The hook's state [usageLimits] is [None] until the snapshot has been
    fetched.  The plain checks return a boolean. *)
Definition canCreateLead (usageLimits : option UsageLimits) : bool :=
  match usageLimits with
  | None => true
  | Some u =>
      if leads_limit u =? -1 then true
      else leads_used u <? leads_limit u
  end.

Definition canCreateAgent (usageLimits : option UsageLimits) : bool :=
  match usageLimits with
  | None => true
  | Some u =>
      if agents_limit u =? -1 then true
      else agents_used u <? agents_limit u
  end.

Definition canCreateCampaign (usageLimits : option UsageLimits) : bool :=
  match usageLimits with
  | None => true
  | Some u =>
      if campaigns_limit u =? -1 then true
      else campaigns_used u <? campaigns_limit u
  end.

(** The checks that raise the upgrade modal return the boolean together
    with the new state of the upgrade store. *)
Definition checkLeadsLimit (usageLimits : option UsageLimits)
    (st : UpgradeStore.UpgradeState) : bool * UpgradeStore.UpgradeState :=
  match usageLimits with
  | None => (true, st)
  | Some u =>
      if leads_limit u =? -1 then (true, st)
      else if leads_used u >=? leads_limit u
      then (false, UpgradeStore.showLeadsLimitReached (leads_used u) (leads_limit u) st)
      else (true, st)
  end.

Definition checkAgentsLimit (usageLimits : option UsageLimits)
    (st : UpgradeStore.UpgradeState) : bool * UpgradeStore.UpgradeState :=
  match usageLimits with
  | None => (true, st)
  | Some u =>
      if agents_limit u =? -1 then (true, st)
      else if agents_used u >=? agents_limit u
      then (false, UpgradeStore.showAgentsLimitReached (agents_used u) (agents_limit u) st)
      else (true, st)
  end.

Definition checkCampaignsLimit (usageLimits : option UsageLimits)
    (st : UpgradeStore.UpgradeState) : bool * UpgradeStore.UpgradeState :=
  match usageLimits with
  | None => (true, st)
  | Some u =>
      if campaigns_limit u =? -1 then (true, st)
      else if campaigns_used u >=? campaigns_limit u
      then (false, UpgradeStore.showCampaignsLimitReached
                     (campaigns_used u) (campaigns_limit u) st)
      else (true, st)
  end.

Section WithCase.

(** [String.prototype.toUpperCase], a primitive of the platform. *)
Variable toUpperCase : string -> string.

Definition customMessageFor (featureName suggestedPlan : string) : string :=
  featureName
  ++ " não está disponível no seu plano atual. Faça upgrade para "
  ++ toUpperCase (Js.charAt0 suggestedPlan) ++ Js.slice1 suggestedPlan
  ++ " ou superior.".

Definition checkFeature (usageLimits : option UsageLimits)
    (feature : UsageKey) (featureName suggestedPlan : string)
    (st : UpgradeStore.UpgradeState) : bool * UpgradeStore.UpgradeState :=
  match usageLimits with
  | None => (true, st)
  | Some u =>
      let hasFeature := get u feature in
      if negb (Js.truthy hasFeature)
      then (false,
            UpgradeStore.openUpgradeModal
              {| UpgradeStore.reason := UpgradeStore.general;
                 UpgradeStore.currentValue := None;
                 UpgradeStore.limitValue := None;
                 UpgradeStore.featureName := Some featureName;
                 UpgradeStore.suggestedPlan := Some suggestedPlan;
                 UpgradeStore.customMessage :=
                   Some (customMessageFor featureName suggestedPlan) |} st)
      else (true, st)
  end.

Definition checkWhatsApp (usageLimits : option UsageLimits) :=
  checkFeature usageLimits K_whatsapp_enabled "WhatsApp" "starter".

Definition checkWhatsAppOfficial (usageLimits : option UsageLimits) :=
  checkFeature usageLimits K_whatsapp_official_api "API Oficial do WhatsApp" "pro".

Definition checkAdvancedFilters (usageLimits : option UsageLimits) :=
  checkFeature usageLimits K_advanced_filters "Filtros Avançados" "starter".

End WithCase.

End PlanLimits.

(** ** lib/api.ts *)

Module Api.

(** The keyword table, in the order [Object.entries] enumerates it (the
    insertion order: no key is an array index). *)
Definition ERROR_TO_UPGRADE_REASON : list (string * UpgradeStore.UpgradeReason) :=
  [ ("limite de leads", UpgradeStore.leads_limit);
    ("limite de prospects", UpgradeStore.leads_limit);
    ("limite de agentes", UpgradeStore.agents_limit);
    ("limite de campanhas", UpgradeStore.campaigns_limit);
    ("whatsapp", UpgradeStore.whatsapp);
    ("api oficial", UpgradeStore.whatsapp_official);
    ("filtros avançados", UpgradeStore.advanced_filters);
    ("relatórios de funil", UpgradeStore.funnel_reports);
    ("funil", UpgradeStore.funnel_reports);
    ("comparação de campanhas", UpgradeStore.campaign_comparison);
    ("comparativo", UpgradeStore.campaign_comparison);
    ("integração crm", UpgradeStore.crm_integration);
    ("crm", UpgradeStore.crm_integration);
    ("suporte prioritário", UpgradeStore.priority_support);
    ("sso", UpgradeStore.sso) ].

(** The [for ... of] loop of [detectUpgradeReason] over the entries still
    to visit. *)
Fixpoint firstMatch (entries : list (string * UpgradeStore.UpgradeReason))
    (lowerMessage : string) : UpgradeStore.UpgradeReason :=
  match entries with
  | [] => UpgradeStore.general
  | (keyword, r) :: rest =>
      if Js.includes lowerMessage keyword then r
      else firstMatch rest lowerMessage
  end.

Section WithCase.

(** [String.prototype.toLowerCase], a primitive of the platform. *)
Variable toLowerCase : string -> string.

Definition detectUpgradeReason (errorMessage : string) : UpgradeStore.UpgradeReason :=
  let lowerMessage := toLowerCase errorMessage in
  firstMatch ERROR_TO_UPGRADE_REASON lowerMessage.

(** What the response interceptor's error handler does to the upgrade
    store.  [hasConfig] is [error.config] being present, [status] is
    [error.response?.status] and [detail] is [error.response.data?.detail].
    The 401 branches touch the auth store only. *)
Definition onResponseError (hasConfig : bool) (status : option Z)
    (detail : option string) (st : UpgradeStore.UpgradeState)
  : UpgradeStore.UpgradeState :=
  if negb hasConfig then st
  else
    match status with
    | Some 403 =>
        let detail := Js.or_else detail "" in
        let r := detectUpgradeReason detail in
        UpgradeStore.openUpgradeModal
          {| UpgradeStore.reason := r;
             UpgradeStore.currentValue := None;
             UpgradeStore.limitValue := None;
             UpgradeStore.featureName := None;
             UpgradeStore.suggestedPlan := Some (UpgradeStore.MINIMUM_PLAN_FOR_FEATURE r);
             UpgradeStore.customMessage := Some detail |} st
    | _ => st
    end.

End WithCase.

End Api.

(** ** The plan table of the plan-selection modal *)

Module PlanCatalog.

Record Feature : Type := mkFeature {
  name : string;
  included : bool
}.

Record Limits : Type := mkLimits {
  prospects : string;
  agents : string;
  campaigns : string
}.

(** A [Plan] of the source without its [price] (a float) and [icon] (a
    rendered element), which no computation reads. *)
Record Plan : Type := mkPlan {
  id : string;
  plan_name : string;
  priceLabel : string;
  description : string;
  popular : bool;
  features : list Feature;
  limits : Limits
}.

Definition plans : list Plan :=
  [ {| id := "free";
       plan_name := "Free";
       priceLabel := "Grátis";
       description := "Teste a qualidade da prospecção e da IA";
       popular := false;
       features :=
         [ mkFeature "Busca Google (Localização/Nicho)" true;
           mkFeature "Busca Instagram (Seguidores/Atividade)" true;
           mkFeature "Filtros Avançados de Qualificação" false;
           mkFeature "Instagram Direct" true;
           mkFeature "WhatsApp (Simulação)" false;
           mkFeature "WhatsApp Business API Oficial" false;
           mkFeature "Dashboard Básico" true;
           mkFeature "Histórico de Interações" true;
           mkFeature "Relatórios de Funil" false;
           mkFeature "Comparativo de Campanhas" false;
           mkFeature "Integração com CRM" false;
           mkFeature "Suporte por Email" false;
           mkFeature "Suporte Prioritário" false;
           mkFeature "SSO (Single Sign-On)" false ];
       limits := {| prospects := "50/mês";
                    agents := "1 Agente";
                    campaigns := "1 Campanha" |} |};
    {| id := "starter";
       plan_name := "Starter";
       priceLabel := "R$ 199,90";
       description := "Ideal para empreendedores iniciando";
       popular := false;
       features :=
         [ mkFeature "Busca Google (Localização/Nicho)" true;
           mkFeature "Busca Instagram (Seguidores/Atividade)" true;
           mkFeature "Filtros Avançados de Qualificação" true;
           mkFeature "Instagram Direct" true;
           mkFeature "WhatsApp (Simulação)" true;
           mkFeature "WhatsApp Business API Oficial" false;
           mkFeature "Dashboard Básico" true;
           mkFeature "Histórico de Interações" true;
           mkFeature "Relatórios de Funil" true;
           mkFeature "Comparativo de Campanhas" false;
           mkFeature "Integração com CRM" false;
           mkFeature "Suporte por Email" true;
           mkFeature "Suporte Prioritário" false;
           mkFeature "SSO (Single Sign-On)" false ];
       limits := {| prospects := "500/mês";
                    agents := "1 Agente";
                    campaigns := "3 Campanhas" |} |};
    {| id := "pro";
       plan_name := "Pro";
       priceLabel := "R$ 399,90";
       description := "Para agências que buscam escala";
       popular := true;
       features :=
         [ mkFeature "Busca Google (Localização/Nicho)" true;
           mkFeature "Busca Instagram (Seguidores/Atividade)" true;
           mkFeature "Filtros Avançados de Qualificação" true;
           mkFeature "Instagram Direct" true;
           mkFeature "WhatsApp (Simulação)" true;
           mkFeature "WhatsApp Business API Oficial" true;
           mkFeature "Dashboard Básico" true;
           mkFeature "Histórico de Interações" true;
           mkFeature "Relatórios de Funil" true;
           mkFeature "Comparativo de Campanhas" true;
           mkFeature "Integração com CRM" true;
           mkFeature "Suporte por Email" true;
           mkFeature "Suporte Prioritário" false;
           mkFeature "SSO (Single Sign-On)" false ];
       limits := {| prospects := "2.000/mês";
                    agents := "5 Agentes";
                    campaigns := "10 Campanhas" |} |};
    {| id := "scale";
       plan_name := "Scale";
       priceLabel := "R$ 799,90";
       description := "Para grandes agências";
       popular := false;
       features :=
         [ mkFeature "Busca Google (Localização/Nicho)" true;
           mkFeature "Busca Instagram (Seguidores/Atividade)" true;
           mkFeature "Filtros Avançados de Qualificação" true;
           mkFeature "Instagram Direct" true;
           mkFeature "WhatsApp (Simulação)" true;
           mkFeature "WhatsApp Business API Oficial" true;
           mkFeature "Dashboard Básico" true;
           mkFeature "Histórico de Interações" true;
           mkFeature "Relatórios de Funil" true;
           mkFeature "Comparativo de Campanhas" true;
           mkFeature "Integração com CRM" true;
           mkFeature "Suporte por Email" true;
           mkFeature "Suporte Prioritário" true;
           mkFeature "SSO (Single Sign-On)" true ];
       limits := {| prospects := "Ilimitado";
                    agents := "Ilimitado";
                    campaigns := "Ilimitado" |} |} ].

Definition allFeatures : list string :=
  [ "Busca Google (Localização/Nicho)";
    "Busca Instagram (Seguidores/Atividade)";
    "Filtros Avançados de Qualificação";
    "Instagram Direct";
    "WhatsApp (Simulação)";
    "WhatsApp Business API Oficial";
    "Dashboard Básico";
    "Histórico de Interações";
    "Relatórios de Funil";
    "Comparativo de Campanhas";
    "Integração com CRM";
    "Suporte por Email";
    "Suporte Prioritário";
    "SSO (Single Sign-On)" ].

(** [features.find(f => f.name === featureName)?.included || false]. *)
Definition featureStatus (fs : list Feature) (featureName : string) : bool :=
  match find (fun f => String.eqb (name f) featureName) fs with
  | Some f => included f
  | None => false
  end.

Definition getPlanFeatureStatus (planId featureName : string) : bool :=
  match find (fun p => String.eqb (id p) planId) plans with
  | Some plan => featureStatus (features plan) featureName
  | None => false
  end.

(** The table states its limits as display text.  A limit is read off the
    text as the table's readers do: ["Ilimitado"] is no limit at all,
    otherwise the limit is the leading decimal numeral, whose groups of
    thousands are separated by a dot. *)
Inductive Quota : Type :=
| Limited (n : Z)
| Unlimited.

Definition digit_of (c : ascii) : option Z :=
  let n := Z.of_nat (nat_of_ascii c) in
  if (48 <=? n) && (n <=? 57) then Some (n - 48) else None.

Fixpoint leading_numeral (s : string) (acc : option Z) : option Z :=
  match s with
  | EmptyString => acc
  | String c s' =>
      match digit_of c with
      | Some d =>
          leading_numeral s' (Some (10 * match acc with Some a => a | None => 0 end + d))
      | None => if Ascii.eqb c "." then leading_numeral s' acc else acc
      end
  end.

Definition quotaOf (text : string) : option Quota :=
  if String.eqb text "Ilimitado" then Some Unlimited
  else option_map Limited (leading_numeral text None).

(** [quota_leb a b]: [b] grants at least what [a] grants (the same number
    or a larger one, or no limit at all). *)
Definition quota_leb (a b : Quota) : bool :=
  match a, b with
  | _, Unlimited => true
  | Unlimited, Limited _ => false
  | Limited x, Limited y => x <=? y
  end.

(** The three metered resources of a plan. *)
Inductive Resource : Type := Prospects | Agents | Campaigns.

Definition limitText (r : Resource) (p : Plan) : string :=
  match r with
  | Prospects => prospects (limits p)
  | Agents => agents (limits p)
  | Campaigns => campaigns (limits p)
  end.

Definition planOf (planId : string) : option Plan :=
  find (fun p => String.eqb (id p) planId) plans.

Definition quotaAt (r : Resource) (planId : string) : option Quota :=
  match planOf planId with
  | Some p => quotaOf (limitText r p)
  | None => None
  end.

End PlanCatalog.

(** ** The letter-case primitives on Basic Latin and Latin-1 text

    [toLowerCase] and [toUpperCase] are parameters of the embedding.  The
    examples instantiate them with their restriction to the letters of
    Basic Latin and of the Latin-1 supplement (in UTF-8 the latter are the
    two-byte sequences led by byte 195), which is all that Portuguese text
    needs. *)

Module Latin.

Definition between (lo hi n : nat) : bool := (Nat.leb lo n) && (Nat.leb n hi).

Fixpoint toLowerCase (s : string) : string :=
  match s with
  | EmptyString => EmptyString
  | String c s' =>
      let n := nat_of_ascii c in
      if between 65 90 n then String (ascii_of_nat (n + 32)) (toLowerCase s')
      else if Nat.eqb n 195 then
        match s' with
        | EmptyString => String c EmptyString
        | String d s'' =>
            let m := nat_of_ascii d in
            String c
              (String (if between 128 158 m && negb (Nat.eqb m 151)
                       then ascii_of_nat (m + 32) else d)
                      (toLowerCase s''))
        end
      else String c (toLowerCase s')
  end.

Fixpoint toUpperCase (s : string) : string :=
  match s with
  | EmptyString => EmptyString
  | String c s' =>
      let n := nat_of_ascii c in
      if between 97 122 n then String (ascii_of_nat (n - 32)) (toUpperCase s')
      else if Nat.eqb n 195 then
        match s' with
        | EmptyString => String c EmptyString
        | String d s'' =>
            let m := nat_of_ascii d in
            String c
              (String (if between 160 190 m && negb (Nat.eqb m 183)
                       then ascii_of_nat (m - 32) else d)
                      (toUpperCase s''))
        end
      else String c (toUpperCase s')
  end.

(** [trim] restricted to the white space of Basic Latin (space, tab and
    the line breaks). *)
Definition isSpace (c : ascii) : bool :=
  let n := nat_of_ascii c in Nat.eqb n 32 || between 9 13 n.

Fixpoint trimStart (s : string) : string :=
  match s with
  | EmptyString => EmptyString
  | String c s' => if isSpace c then trimStart s' else s
  end.

Fixpoint trimEnd (s : string) : string :=
  match s with
  | EmptyString => EmptyString
  | String c s' =>
      match trimEnd s' with
      | EmptyString => if isSpace c then EmptyString else String c EmptyString
      | rest => String c rest
      end
  end.

Definition trim (s : string) : string := trimEnd (trimStart s).

End Latin.

(** ** Notions the properties are stated with *)

Module Spec.

Import UpgradeStore.

(** [n] is the tier immediately above [t] in [planOrder]. *)
Definition immediately_above (n t : PlanTier) : Prop :=
  ordinal (tier_id n) = ordinal (tier_id t) + 1.

(** [res] is the one of [a] and [b] that has the higher ordinal. *)
Definition higher_of (a b res : string) : Prop :=
  (res = a \/ res = b) /\ ordinal a <= ordinal res /\ ordinal b <= ordinal res.

(** The suggestion for [t] and [r] is the higher of the minimum tier of [r]
    and the tier immediately above [t]. *)
Definition suggests_higher_of_minimum_and_next (t : PlanTier) (r : UpgradeReason) : Prop :=
  exists n : PlanTier,
    immediately_above n t /\
    higher_of (MINIMUM_PLAN_FOR_FEATURE r) (tier_id n) (getSuggestedPlan (tier_id t) r).

(** The evaluator of the specification, with purchased add-on quota:
    quota is left iff the base limit is the unlimited sentinel or
    [used < base + addOn]; what remains is [base + addOn - used], not below
    zero, and the sentinel itself when the base is unlimited. *)
Definition unlimited : Z := -1.

Definition hasQuota (limit used addOn : Z) : bool :=
  (limit =? unlimited) || (used <? limit + addOn).

Definition remaining (limit used addOn : Z) : Z :=
  if limit =? unlimited then unlimited else Z.max 0 (limit + addOn - used).

(** [kw] occurs in [s] as a contiguous run of characters. *)
Definition Occurs (kw s : string) : Prop :=
  exists pre post : string, s = pre ++ kw ++ post.

(** The metered resources of the usage snapshot and the gate functions of
    each. *)
Inductive Metered : Type := Leads | Agents | Campaigns.

Definition limitOf (q : Metered) (u : PlanLimits.UsageLimits) : Z :=
  match q with
  | Leads => PlanLimits.leads_limit u
  | Agents => PlanLimits.agents_limit u
  | Campaigns => PlanLimits.campaigns_limit u
  end.

Definition usedOf (q : Metered) (u : PlanLimits.UsageLimits) : Z :=
  match q with
  | Leads => PlanLimits.leads_used u
  | Agents => PlanLimits.agents_used u
  | Campaigns => PlanLimits.campaigns_used u
  end.

Definition canCreate (q : Metered) : option PlanLimits.UsageLimits -> bool :=
  match q with
  | Leads => PlanLimits.canCreateLead
  | Agents => PlanLimits.canCreateAgent
  | Campaigns => PlanLimits.canCreateCampaign
  end.

Definition checkLimit (q : Metered)
  : option PlanLimits.UsageLimits -> UpgradeState -> bool * UpgradeState :=
  match q with
  | Leads => PlanLimits.checkLeadsLimit
  | Agents => PlanLimits.checkAgentsLimit
  | Campaigns => PlanLimits.checkCampaignsLimit
  end.

Definition reasonOf (q : Metered) : UpgradeReason :=
  match q with
  | Leads => leads_limit
  | Agents => agents_limit
  | Campaigns => campaigns_limit
  end.

(** A usage snapshot of a Free-tier user: 50 leads, 1 agent, 1 campaign and
    no gated feature. *)
Definition freeSnapshot (leadsUsed agentsUsed campaignsUsed : Z) : PlanLimits.UsageLimits :=
  {| PlanLimits.plan_tier := "free";
     PlanLimits.leads_limit := 50;
     PlanLimits.leads_used := leadsUsed;
     PlanLimits.leads_remaining := Z.max 0 (50 - leadsUsed);
     PlanLimits.agents_limit := 1;
     PlanLimits.agents_used := agentsUsed;
     PlanLimits.agents_remaining := Z.max 0 (1 - agentsUsed);
     PlanLimits.campaigns_limit := 1;
     PlanLimits.campaigns_used := campaignsUsed;
     PlanLimits.campaigns_remaining := Z.max 0 (1 - campaignsUsed);
     PlanLimits.whatsapp_enabled := false;
     PlanLimits.whatsapp_official_api := false;
     PlanLimits.advanced_filters := false;
     PlanLimits.funnel_reports := false;
     PlanLimits.campaign_comparison := false;
     PlanLimits.crm_integration := false;
     PlanLimits.priority_support := false;
     PlanLimits.sso := false |}.

(** A snapshot with the given leads counters (the other resources
    unlimited, every feature on). *)
Definition leadsSnapshot (tier : string) (limit used remainingLeads : Z)
  : PlanLimits.UsageLimits :=
  {| PlanLimits.plan_tier := tier;
     PlanLimits.leads_limit := limit;
     PlanLimits.leads_used := used;
     PlanLimits.leads_remaining := remainingLeads;
     PlanLimits.agents_limit := -1;
     PlanLimits.agents_used := 0;
     PlanLimits.agents_remaining := -1;
     PlanLimits.campaigns_limit := -1;
     PlanLimits.campaigns_used := 0;
     PlanLimits.campaigns_remaining := -1;
     PlanLimits.whatsapp_enabled := true;
     PlanLimits.whatsapp_official_api := true;
     PlanLimits.advanced_filters := true;
     PlanLimits.funnel_reports := true;
     PlanLimits.campaign_comparison := true;
     PlanLimits.crm_integration := true;
     PlanLimits.priority_support := true;
     PlanLimits.sso := true |}.

(** The feature list the plan table gives a tier. *)
Definition featuresOf (t : PlanTier) : list PlanCatalog.Feature :=
  match PlanCatalog.planOf (tier_id t) with
  | Some p => PlanCatalog.features p
  | None => []
  end.

(** Feature list [fs2] keeps every feature of [fs1], position by
    position. *)
Definition keeps_features (fs1 fs2 : list PlanCatalog.Feature) : Prop :=
  Forall2 (fun a b =>
             PlanCatalog.name a = PlanCatalog.name b /\
             (PlanCatalog.included a = true -> PlanCatalog.included b = true))
          fs1 fs2.

(** Quota [b] is not stricter than quota [a]: unlimited, or a number that
    is the same or larger. *)
Definition never_stricter (a b : PlanCatalog.Quota) : Prop :=
  b = PlanCatalog.Unlimited \/
  exists x y : Z, a = PlanCatalog.Limited x /\ b = PlanCatalog.Limited y /\ x <= y.

End Spec.

(** ** stores/authStore.ts *)

Module AuthStore.

Record PlanFeatures : Type := mkPlanFeatures {
  prospects_per_month : Z;
  agents : Z;
  campaigns : Z;
  whatsapp_enabled : bool;
  whatsapp_official_api : bool;
  advanced_filters : bool;
  funnel_reports : bool;
  campaign_comparison : bool;
  crm_integration : bool;
  priority_support : bool;
  sso : bool
}.

Definition free_features : PlanFeatures :=
  {| prospects_per_month := 50; agents := 1; campaigns := 1;
     whatsapp_enabled := false; whatsapp_official_api := false;
     advanced_filters := false; funnel_reports := false;
     campaign_comparison := false; crm_integration := false;
     priority_support := false; sso := false |}.

Definition starter_features : PlanFeatures :=
  {| prospects_per_month := 500; agents := 1; campaigns := 3;
     whatsapp_enabled := true; whatsapp_official_api := false;
     advanced_filters := true; funnel_reports := true;
     campaign_comparison := false; crm_integration := false;
     priority_support := false; sso := false |}.

Definition pro_features : PlanFeatures :=
  {| prospects_per_month := 2000; agents := 5; campaigns := 10;
     whatsapp_enabled := true; whatsapp_official_api := true;
     advanced_filters := true; funnel_reports := true;
     campaign_comparison := true; crm_integration := true;
     priority_support := false; sso := false |}.

Definition scale_features : PlanFeatures :=
  {| prospects_per_month := -1; agents := -1; campaigns := -1;
     whatsapp_enabled := true; whatsapp_official_api := true;
     advanced_filters := true; funnel_reports := true;
     campaign_comparison := true; crm_integration := true;
     priority_support := true; sso := true |}.

(** [PLAN_FEATURES[tier]]: the record of one of the four keys of the
    table, and [undefined] for any other tier name. *)
Definition PLAN_FEATURES (tier : string) : option PlanFeatures :=
  if String.eqb tier "free" then Some free_features
  else if String.eqb tier "starter" then Some starter_features
  else if String.eqb tier "pro" then Some pro_features
  else if String.eqb tier "scale" then Some scale_features
  else None.

(** [keyof typeof PLAN_FEATURES.free]. *)
Inductive FeatureKey : Type :=
| F_prospects_per_month | F_agents | F_campaigns
| F_whatsapp_enabled | F_whatsapp_official_api | F_advanced_filters
| F_funnel_reports | F_campaign_comparison | F_crm_integration
| F_priority_support | F_sso.

Definition featureValue (pf : PlanFeatures) (k : FeatureKey) : Js.value :=
  match k with
  | F_prospects_per_month => Js.VNumber (prospects_per_month pf)
  | F_agents => Js.VNumber (agents pf)
  | F_campaigns => Js.VNumber (campaigns pf)
  | F_whatsapp_enabled => Js.VBoolean (whatsapp_enabled pf)
  | F_whatsapp_official_api => Js.VBoolean (whatsapp_official_api pf)
  | F_advanced_filters => Js.VBoolean (advanced_filters pf)
  | F_funnel_reports => Js.VBoolean (funnel_reports pf)
  | F_campaign_comparison => Js.VBoolean (campaign_comparison pf)
  | F_crm_integration => Js.VBoolean (crm_integration pf)
  | F_priority_support => Js.VBoolean (priority_support pf)
  | F_sso => Js.VBoolean (sso pf)
  end.

Record User : Type := mkUser {
  id : string;
  email : string;
  full_name : string;
  role : string;
  plan_tier : string;
  is_active : bool;
  is_admin : bool;
  profile_completed : bool;
  person_type : option string;
  created_at : string
}.

Record AuthState : Type := mkAuthState {
  user : option User;
  accessToken : option string;
  refreshToken : option string;
  isAuthenticated : bool
}.

Definition initialState : AuthState :=
  {| user := None; accessToken := None; refreshToken := None;
     isAuthenticated := false |}.

(** The actions.  [set] merges the fields it is given into the state. *)
Definition setUser (u : User) (s : AuthState) : AuthState :=
  {| user := Some u;
     accessToken := accessToken s;
     refreshToken := refreshToken s;
     isAuthenticated := isAuthenticated s |}.

Definition setTokens (access refresh : string) (s : AuthState) : AuthState :=
  {| user := user s;
     accessToken := Some access;
     refreshToken := Some refresh;
     isAuthenticated := true |}.

Definition login (u : User) (access refresh : string) (s : AuthState) : AuthState :=
  {| user := Some u;
     accessToken := Some access;
     refreshToken := Some refresh;
     isAuthenticated := true |}.

Definition logout (s : AuthState) : AuthState :=
  {| user := None; accessToken := None; refreshToken := None;
     isAuthenticated := false |}.

(** The computed getters. *)
Definition isAdmin (s : AuthState) : bool :=
  match user s with
  | None => false
  | Some u => is_admin u || String.eqb (role u) "admin" || false
  end.

Definition hasFeature (feature : FeatureKey) (s : AuthState) : bool :=
  match user s with
  | None => false
  | Some u =>
      match PLAN_FEATURES (plan_tier u) with
      | None => false
      | Some pf =>
          match featureValue pf feature with
          | Js.VBoolean b => b
          | Js.VNumber n => (n =? -1) || (n >? 0)
          | Js.VString _ => false
          end
      end
  end.

(** [user?.plan_tier || 'free']. *)
Definition getPlanTier (s : AuthState) : string :=
  Js.or_else (option_map plan_tier (user s)) "free".

Definition getPlanFeatures (s : AuthState) : option PlanFeatures :=
  PLAN_FEATURES (getPlanTier s).

Definition names (tier : string) : option string :=
  if String.eqb tier "free" then Some "Free"
  else if String.eqb tier "starter" then Some "Starter"
  else if String.eqb tier "pro" then Some "Pro"
  else if String.eqb tier "scale" then Some "Scale"
  else None.

Definition getPlanName (s : AuthState) : option string :=
  names (getPlanTier s).

End AuthStore.

(** ** components/UpgradeModal.tsx (what the modal computes) *)

Module UpgradeModal.

(** The plans strictly above the current one. *)
Definition availablePlans (currentPlan : string) : list string :=
  let planOrder := ["free"; "starter"; "pro"; "scale"] in
  let currentIndex := Js.indexOf currentPlan planOrder in
  filter (fun plan => Js.indexOf plan planOrder >? currentIndex)
         ["starter"; "pro"; "scale"].

(** The plan the modal recommends: [None] when there is no context (the
    component renders nothing). *)
Definition recommendedPlan (auth : AuthStore.AuthState)
    (st : UpgradeStore.UpgradeState) : option string :=
  match UpgradeStore.context st with
  | None => None
  | Some ctx =>
      Some (UpgradeStore.getSuggestedPlan (AuthStore.getPlanTier auth)
              (UpgradeStore.reason ctx))
  end.

(** The section of the other plans is rendered when more than one plan is
    available; it lists the available plans but the recommended one. *)
Definition showsOtherPlans (currentPlan : string) : bool :=
  Z.of_nat (List.length (availablePlans currentPlan)) >? 1.

Definition otherPlans (currentPlan suggestedPlan : string) : list string :=
  filter (fun plan => negb (String.eqb plan suggestedPlan))
         (availablePlans currentPlan).

End UpgradeModal.

(** ** pages/campaigns/CampaignCreate.tsx (tag lists and the submit gate) *)

Module CampaignCreate.

(** [Array.prototype.includes] on strings. *)
Definition arrayIncludes (l : list string) (x : string) : bool :=
  existsb (fun y => String.eqb y x) l.

(** [s.replace(/^#/, '')]: one leading hash sign is dropped. *)
Definition stripHash (s : string) : string :=
  match s with
  | String c s' => if Ascii.eqb c "#" then s' else s
  | EmptyString => s
  end.

Definition removeHashtag (tag : string) (hashtags : list string) : list string :=
  filter (fun h => negb (String.eqb h tag)) hashtags.

Definition removeKeyword (kw : string) (keywords : list string) : list string :=
  filter (fun k => negb (String.eqb k kw)) keywords.

Section WithTrim.

(** [String.prototype.trim], a primitive of the platform. *)
Variable trim : string -> string.

(** The handlers return the new list together with the new content of the
    input box. *)
Definition addHashtag (newHashtag : string) (hashtags : list string)
  : list string * string :=
  if Js.truthy_string (trim newHashtag) then
    let tag := stripHash (trim newHashtag) in
    (if negb (arrayIncludes hashtags tag) then (hashtags ++ [tag])%list else hashtags, "")
  else (hashtags, newHashtag).

Definition addKeyword (newKeyword : string) (keywords : list string)
  : list string * string :=
  if Js.truthy_string (trim newKeyword) then
    let kw := trim newKeyword in
    (if negb (arrayIncludes keywords kw) then (keywords ++ [kw])%list else keywords, "")
  else (keywords, newKeyword).

End WithTrim.

Section WithCase.

Variable toUpperCase : string -> string.

(** The two checks at the head of [onSubmit]: [true] when the handler goes
    on to post the campaign. *)
Definition submitGate (usageLimits : option PlanLimits.UsageLimits)
    (channel : string) (st : UpgradeStore.UpgradeState)
  : bool * UpgradeStore.UpgradeState :=
  let (okCampaigns, st1) := PlanLimits.checkCampaignsLimit usageLimits st in
  if negb okCampaigns then (false, st1)
  else if String.eqb channel "whatsapp" then
    let (okWhatsApp, st2) := PlanLimits.checkWhatsApp toUpperCase usageLimits st1 in
    if negb okWhatsApp then (false, st2) else (true, st2)
  else (true, st1).

End WithCase.

End CampaignCreate.

(** ** lib/api.ts (the two interceptors in full) *)

Module Interceptors.

(** What the interceptors read and write of a request configuration. *)
Record Request : Type := mkRequest {
  _retry : bool;
  Authorization : option string
}.

(** How the error handler settles. *)
Inductive Settled : Type :=
| Rejected          (** [Promise.reject(error)] *)
| RejectedRefresh   (** [Promise.reject(refreshError)] *)
| Resent (req : Request)  (** [api(originalRequest)] *).

(** The two stores and the address the window was last sent to. *)
Record World : Type := mkWorld {
  auth : AuthStore.AuthState;
  upgrade : UpgradeStore.UpgradeState;
  location : option string
}.

Definition onRequest (s : AuthStore.AuthState) (config : Request) : Request :=
  match AuthStore.accessToken s with
  | Some token =>
      if Js.truthy_string token
      then {| _retry := _retry config; Authorization := Some ("Bearer " ++ token) |}
      else config
  | None => config
  end.

(** [logout()] followed by [window.location.href = '/login?expired=true']. *)
Definition expire (w : World) : World :=
  {| auth := AuthStore.logout (auth w);
     upgrade := upgrade w;
     location := Some "/login?expired=true" |}.

Section WithPlatform.

Variable toLowerCase : string -> string.

(** The answer of [POST /api/v1/auth/refresh] to a refresh token: the new
    access and refresh tokens, or [None] when the call throws. *)
Variable refresh : string -> option (string * string).

Definition onRejected (config : option Request) (status : option Z)
    (detail : option string) (w : World) : Settled * World :=
  match config with
  | None => (Rejected, w)
  | Some originalRequest =>
      let statusIs (code : Z) : bool :=
        match status with
        | Some s => s =? code
        | None => false
        end in
      if statusIs 403 then
        (Rejected,
         {| auth := auth w;
            upgrade := Api.onResponseError toLowerCase true (Some 403) detail (upgrade w);
            location := location w |})
      else if statusIs 401 && negb (_retry originalRequest) then
        (* originalRequest._retry = true *)
        match AuthStore.refreshToken (auth w) with
        | Some refreshToken =>
            if Js.truthy_string refreshToken then
              match refresh refreshToken with
              | Some (access_token, refresh_token) =>
                  (Resent {| _retry := true;
                             Authorization := Some ("Bearer " ++ access_token) |},
                   {| auth := AuthStore.setTokens access_token refresh_token (auth w);
                      upgrade := upgrade w;
                      location := location w |})
              | None => (RejectedRefresh, expire w)
              end
            else
              (* logged out here and again by the check that follows *)
              (Rejected, expire (expire w))
        | None => (Rejected, expire (expire w))
        end
      else if statusIs 401 && _retry originalRequest then (Rejected, expire w)
      else (Rejected, w)
  end.

End WithPlatform.

End Interceptors.

(** ** Further notions the properties are stated with *)

Module Notions.

(** The actions of the upgrade store and of the auth store, and runs of
    them. *)
Inductive UpgradeAction : Type :=
| OpenUpgradeModal (ctx : UpgradeStore.UpgradeContext)
| CloseUpgradeModal
| ShowLeadsLimitReached (used limit : Z)
| ShowAgentsLimitReached (used limit : Z)
| ShowCampaignsLimitReached (used limit : Z)
| ShowFeatureRequired (name plan : string).

Definition stepUpgrade (a : UpgradeAction) (st : UpgradeStore.UpgradeState)
  : UpgradeStore.UpgradeState :=
  match a with
  | OpenUpgradeModal ctx => UpgradeStore.openUpgradeModal ctx st
  | CloseUpgradeModal => UpgradeStore.closeUpgradeModal st
  | ShowLeadsLimitReached u l => UpgradeStore.showLeadsLimitReached u l st
  | ShowAgentsLimitReached u l => UpgradeStore.showAgentsLimitReached u l st
  | ShowCampaignsLimitReached u l => UpgradeStore.showCampaignsLimitReached u l st
  | ShowFeatureRequired n p => UpgradeStore.showFeatureRequired n p st
  end.

Definition runUpgrade (acts : list UpgradeAction) (st : UpgradeStore.UpgradeState)
  : UpgradeStore.UpgradeState :=
  fold_left (fun s a => stepUpgrade a s) acts st.

Inductive AuthAction : Type :=
| SetUser (u : AuthStore.User)
| SetTokens (access refresh : string)
| Login (u : AuthStore.User) (access refresh : string)
| Logout.

Definition stepAuth (a : AuthAction) (s : AuthStore.AuthState) : AuthStore.AuthState :=
  match a with
  | SetUser u => AuthStore.setUser u s
  | SetTokens a r => AuthStore.setTokens a r s
  | Login u a r => AuthStore.login u a r s
  | Logout => AuthStore.logout s
  end.

Definition runAuth (acts : list AuthAction) (s : AuthStore.AuthState)
  : AuthStore.AuthState :=
  fold_left (fun s a => stepAuth a s) acts s.

(** The entitlement of [PLAN_FEATURES] a gate reason is about: a flag for
    the eight feature reasons, a limit for the three quota reasons, none for
    [general]. *)
Definition keyOf (r : UpgradeStore.UpgradeReason) : option AuthStore.FeatureKey :=
  match r with
  | UpgradeStore.leads_limit => Some AuthStore.F_prospects_per_month
  | UpgradeStore.agents_limit => Some AuthStore.F_agents
  | UpgradeStore.campaigns_limit => Some AuthStore.F_campaigns
  | UpgradeStore.whatsapp => Some AuthStore.F_whatsapp_enabled
  | UpgradeStore.whatsapp_official => Some AuthStore.F_whatsapp_official_api
  | UpgradeStore.advanced_filters => Some AuthStore.F_advanced_filters
  | UpgradeStore.funnel_reports => Some AuthStore.F_funnel_reports
  | UpgradeStore.campaign_comparison => Some AuthStore.F_campaign_comparison
  | UpgradeStore.crm_integration => Some AuthStore.F_crm_integration
  | UpgradeStore.priority_support => Some AuthStore.F_priority_support
  | UpgradeStore.sso => Some AuthStore.F_sso
  | UpgradeStore.general => None
  end.

(** The eight feature reasons. *)
Definition isFeatureReason (r : UpgradeStore.UpgradeReason) : bool :=
  match r with
  | UpgradeStore.leads_limit | UpgradeStore.agents_limit
  | UpgradeStore.campaigns_limit | UpgradeStore.general => false
  | _ => true
  end.

(** The flag of a tier name in [PLAN_FEATURES] ([false] for a limit, for
    [general] and for an unknown tier). *)
Definition flagAt (tier : string) (r : UpgradeStore.UpgradeReason) : bool :=
  match AuthStore.PLAN_FEATURES tier, keyOf r with
  | Some pf, Some k =>
      match AuthStore.featureValue pf k with
      | Js.VBoolean b => b
      | _ => false
      end
  | _, _ => false
  end.

(** The numeric limit of a resource in [PLAN_FEATURES], as a quota. *)
Definition limitAt (res : PlanCatalog.Resource) (tier : string) : option PlanCatalog.Quota :=
  match AuthStore.PLAN_FEATURES tier with
  | Some pf =>
      let n := match res with
               | PlanCatalog.Prospects => AuthStore.prospects_per_month pf
               | PlanCatalog.Agents => AuthStore.agents pf
               | PlanCatalog.Campaigns => AuthStore.campaigns pf
               end in
      Some (if n =? -1 then PlanCatalog.Unlimited else PlanCatalog.Limited n)
  | None => None
  end.

(** The flag of [PLAN_FEATURES] a line of the plan table displays. *)
Definition displayedFlag (featureName : string) : option UpgradeStore.UpgradeReason :=
  if String.eqb featureName "Filtros Avançados de Qualificação"
  then Some UpgradeStore.advanced_filters
  else if String.eqb featureName "WhatsApp (Simulação)" then Some UpgradeStore.whatsapp
  else if String.eqb featureName "WhatsApp Business API Oficial"
  then Some UpgradeStore.whatsapp_official
  else if String.eqb featureName "Relatórios de Funil" then Some UpgradeStore.funnel_reports
  else if String.eqb featureName "Comparativo de Campanhas"
  then Some UpgradeStore.campaign_comparison
  else if String.eqb featureName "Integração com CRM" then Some UpgradeStore.crm_integration
  else if String.eqb featureName "Suporte Prioritário" then Some UpgradeStore.priority_support
  else if String.eqb featureName "SSO (Single Sign-On)" then Some UpgradeStore.sso
  else None.

(** [b] grants strictly more than [a]. *)
Definition strictly_larger (a b : PlanCatalog.Quota) : Prop :=
  match a, b with
  | PlanCatalog.Limited x, PlanCatalog.Limited y => x < y
  | PlanCatalog.Limited _, PlanCatalog.Unlimited => True
  | PlanCatalog.Unlimited, _ => False
  end.

(** A user on a given tier, and the state of a session of that user. *)
Definition userOn (tier : string) : AuthStore.User :=
  {| AuthStore.id := "u1";
     AuthStore.email := "user@example.com";
     AuthStore.full_name := "User";
     AuthStore.role := "common";
     AuthStore.plan_tier := tier;
     AuthStore.is_active := true;
     AuthStore.is_admin := false;
     AuthStore.profile_completed := true;
     AuthStore.person_type := None;
     AuthStore.created_at := "2025-01-01T00:00:00Z" |}.

Definition sessionOn (tier : string) : AuthStore.AuthState :=
  AuthStore.login (userOn tier) "access" "refresh" AuthStore.initialState.

(** The invariant of the upgrade store: the modal is open exactly when a
    context is stored, and a stored context names a suggested plan. *)
Definition store_invariant (st : UpgradeStore.UpgradeState) : Prop :=
  (UpgradeStore.isOpen st = true <-> UpgradeStore.context st <> None) /\
  (forall ctx, UpgradeStore.context st = Some ctx ->
               UpgradeStore.suggestedPlan ctx <> None).

(** The invariant of the auth store: the session counts as authenticated
    exactly when both tokens are stored. *)
Definition auth_invariant (s : AuthStore.AuthState) : Prop :=
  AuthStore.isAuthenticated s = true <->
  (AuthStore.accessToken s <> None /\ AuthStore.refreshToken s <> None).

(** The keyword table without the two keywords that contain a later
    keyword of the same reason. *)
Definition tableWithoutLongForms : list (string * UpgradeStore.UpgradeReason) :=
  filter (fun e => negb (String.eqb (fst e) "relatórios de funil"
                         || String.eqb (fst e) "integração crm"))
         Api.ERROR_TO_UPGRADE_REASON.

(** A refresh endpoint that accepts one refresh token, and a world in
    which a user on a given tier is logged in. *)
Definition sampleRefresh (refreshToken : string) : option (string * string) :=
  if String.eqb refreshToken "refresh" then Some ("access2", "refresh2") else None.

Definition worldOn (tier : string) : Interceptors.World :=
  {| Interceptors.auth := sessionOn tier;
     Interceptors.upgrade := UpgradeStore.initialState;
     Interceptors.location := None |}.

Definition freshRequest : Interceptors.Request :=
  {| Interceptors._retry := false; Interceptors.Authorization := Some "Bearer access" |}.

(** The gate reason of each metered resource, and the limit keys of
    [PLAN_FEATURES]. *)
Definition reasonOfResource (res : PlanCatalog.Resource) : UpgradeStore.UpgradeReason :=
  match res with
  | PlanCatalog.Prospects => UpgradeStore.leads_limit
  | PlanCatalog.Agents => UpgradeStore.agents_limit
  | PlanCatalog.Campaigns => UpgradeStore.campaigns_limit
  end.

Definition isLimitKey (k : AuthStore.FeatureKey) : bool :=
  match k with
  | AuthStore.F_prospects_per_month | AuthStore.F_agents | AuthStore.F_campaigns => true
  | _ => false
  end.

End Notions.

(** * Properties *)

(** ** Examples *)

Example getNextPlan_examples :
  UpgradeStore.getNextPlan "free" = Some "starter" /\
  UpgradeStore.getNextPlan "pro" = Some "scale" /\
  UpgradeStore.getNextPlan "enterprise" = None.
Proof. repeat split; reflexivity. Qed.

Example getSuggestedPlan_examples :
  UpgradeStore.getSuggestedPlan "starter" UpgradeStore.campaign_comparison = "pro" /\
  UpgradeStore.getSuggestedPlan "free" UpgradeStore.sso = "scale" /\
  UpgradeStore.getSuggestedPlan "pro" UpgradeStore.leads_limit = "scale".
Proof. repeat split; reflexivity. Qed.

Example detectUpgradeReason_examples :
  Api.detectUpgradeReason Latin.toLowerCase "Limite de Agentes atingido"
    = UpgradeStore.agents_limit /\
  Api.detectUpgradeReason Latin.toLowerCase "Seu plano não inclui FILTROS AVANÇADOS"
    = UpgradeStore.advanced_filters /\
  Api.detectUpgradeReason Latin.toLowerCase "Acesso negado" = UpgradeStore.sso /\
  Api.detectUpgradeReason Latin.toLowerCase "Plano insuficiente" = UpgradeStore.general.
Proof. repeat split; vm_compute; reflexivity. Qed.

Example quotaAt_examples :
  PlanCatalog.quotaAt PlanCatalog.Prospects "pro" = Some (PlanCatalog.Limited 2000) /\
  PlanCatalog.quotaAt PlanCatalog.Agents "starter" = Some (PlanCatalog.Limited 1) /\
  PlanCatalog.quotaAt PlanCatalog.Campaigns "scale" = Some PlanCatalog.Unlimited.
Proof. repeat split; reflexivity. Qed.

Example customMessage_example :
  PlanLimits.customMessageFor Latin.toUpperCase "WhatsApp" "starter"
  = "WhatsApp não está disponível no seu plano atual. Faça upgrade para Starter ou superior.".
Proof. reflexivity. Qed.

(** ** The suggested plan *)

Section Suggestion.

Import UpgradeStore Spec.

Lemma ordinal_tier_id (t : PlanTier) :
  ordinal (tier_id t) =
  match t with free => 0 | starter => 1 | pro => 2 | scale => 3 end.
Proof. destruct t; reflexivity. Qed.

Lemma indexOf_from_bounds (x : string) (l : list string) (i : Z) :
  Js.indexOf_from x l i = -1 \/
  i <= Js.indexOf_from x l i < i + Z.of_nat (List.length l).
Proof.
  revert i; induction l as [|y l IH]; intros i; simpl.
  - now left.
  - destruct (String.eqb y x).
    + right; lia.
    + destruct (IH (i + 1)) as [H|H]; [now left | right; lia].
Qed.

Lemma ordinal_le_top (p : string) : ordinal p <= ordinal (tier_id scale).
Proof.
  rewrite ordinal_tier_id.
  unfold ordinal, Js.indexOf.
  destruct (indexOf_from_bounds p planOrder 0) as [H|H];
    change (Z.of_nat (List.length planOrder)) with 4 in *; lia.
Qed.

Lemma getNextPlan_tier_id (t : PlanTier) :
  getNextPlan (tier_id t) =
  match t with
  | free => Some (tier_id starter)
  | starter => Some (tier_id pro)
  | pro => Some (tier_id scale)
  | scale => None
  end.
Proof. destruct t; reflexivity. Qed.

Lemma minimum_plan_is_paid_tier (r : UpgradeReason) :
  exists m : PlanTier, MINIMUM_PLAN_FOR_FEATURE r = tier_id m /\ m <> free.
Proof.
  destruct r;
    solve [ exists starter; split; [reflexivity | discriminate]
          | exists pro; split; [reflexivity | discriminate]
          | exists scale; split; [reflexivity | discriminate] ].
Qed.

Lemma getSuggestedPlan_none (p : string) (r : UpgradeReason) :
  getNextPlan p = None -> getSuggestedPlan p r = "scale".
Proof. unfold getSuggestedPlan; intros ->; reflexivity. Qed.

Lemma getSuggestedPlan_some (p n : string) (r : UpgradeReason) :
  getNextPlan p = Some n -> n <> "" ->
  getSuggestedPlan p r =
  if ordinal n >=? ordinal (MINIMUM_PLAN_FOR_FEATURE r)
  then n else MINIMUM_PLAN_FOR_FEATURE r.
Proof.
  unfold getSuggestedPlan; intros -> Hn.
  unfold Js.truthy_string.
  destruct (String.eqb_spec n ""); [contradiction | reflexivity].
Qed.

Lemma higher_of_choice (a b : string) :
  higher_of a b (if ordinal b >=? ordinal a then b else a).
Proof.
  unfold higher_of; rewrite Z.geb_leb.
  destruct (Z.leb_spec (ordinal a) (ordinal b)); intuition lia.
Qed.

Lemma tier_id_nonempty (t : PlanTier) : tier_id t <> "".
Proof. destruct t; discriminate. Qed.

(** C1 (as the code has it).  For the tiers that have a tier above them
    (free, starter, pro) [getSuggestedPlan] returns the one of the reason's
    minimum plan and the tier immediately above the current one that has the
    higher ordinal; for scale, which has no tier above it, it returns scale.
    In particular pro with [priority_support] gives scale. *)
Theorem getSuggestedPlan_higher_or_top :
  (forall (t : PlanTier) (r : UpgradeReason),
     match getNextPlan (tier_id t) with
     | Some next =>
         (exists n : PlanTier, next = tier_id n /\ immediately_above n t) /\
         higher_of (MINIMUM_PLAN_FOR_FEATURE r) next (getSuggestedPlan (tier_id t) r)
     | None =>
         t = scale /\ getSuggestedPlan (tier_id t) r = tier_id scale
     end) /\
  getSuggestedPlan (tier_id pro) priority_support = tier_id scale.
Proof.
  split; [| reflexivity].
  intros t r.
  pose proof (getNextPlan_tier_id t) as Hnext.
  destruct (getNextPlan (tier_id t)) as [next|] eqn:E.
  - assert (Hn : exists n : PlanTier, next = tier_id n /\ immediately_above n t).
    { unfold immediately_above.
      destruct t; inversion Hnext; subst;
        [exists starter | exists pro | exists scale]; split; reflexivity. }
    split; [exact Hn |].
    destruct Hn as [n [-> _]].
    rewrite (getSuggestedPlan_some _ _ r E (tier_id_nonempty n)).
    apply higher_of_choice.
  - split.
    + destruct t; try discriminate Hnext; reflexivity.
    + now apply getSuggestedPlan_none.
Qed.

(** C1 (as stated) fails at scale: no tier is immediately above scale, and
    for [leads_limit] the plan returned, scale, is not the reason's minimum
    plan either. *)
Lemma getSuggestedPlan_scale_not_among_candidates :
  ~ suggests_higher_of_minimum_and_next scale leads_limit /\
  getSuggestedPlan (tier_id scale) leads_limit <> MINIMUM_PLAN_FOR_FEATURE leads_limit.
Proof.
  split.
  - intros [n [Habove _]].
    unfold immediately_above in Habove.
    rewrite !ordinal_tier_id in Habove.
    destruct n; lia.
  - discriminate.
Qed.

(** C5.  The plan suggested for a tier and a reason never has a lower
    ordinal than the current tier, nor than the reason's minimum plan. *)
Theorem getSuggestedPlan_never_regresses :
  forall (t : PlanTier) (r : UpgradeReason),
    ordinal (tier_id t) <= ordinal (getSuggestedPlan (tier_id t) r) /\
    ordinal (MINIMUM_PLAN_FOR_FEATURE r) <= ordinal (getSuggestedPlan (tier_id t) r).
Proof.
  intros t r.
  destruct (getNextPlan (tier_id t)) as [next|] eqn:E.
  - assert (Hnext : next <> "" /\ ordinal next = ordinal (tier_id t) + 1).
    { rewrite getNextPlan_tier_id in E.
      destruct t; inversion E; subst; split; (discriminate || reflexivity). }
    destruct Hnext as [Hne Hord].
    rewrite (getSuggestedPlan_some _ _ r E Hne).
    destruct (higher_of_choice (MINIMUM_PLAN_FOR_FEATURE r) next) as [_ [Hmin Hn]].
    split; [lia | exact Hmin].
  - rewrite (getSuggestedPlan_none _ r E).
    split; apply (ordinal_le_top _).
Qed.

(** C6.  The top tier is terminal: scale has no next plan, and whatever the
    reason the plan suggested to a scale user is scale. *)
Theorem top_tier_terminal :
  getNextPlan (tier_id scale) = None /\
  forall r : UpgradeReason, getSuggestedPlan (tier_id scale) r = tier_id scale.
Proof.
  split; [reflexivity |].
  intros r; apply getSuggestedPlan_none; reflexivity.
Qed.

End Suggestion.

(** ** The quota gates *)

Section QuotaGates.

Import UpgradeStore Spec.

(** What each plain check computes once the snapshot is loaded: the
    evaluator of the specification with no add-on quota at all. *)
Lemma canCreate_loaded (q : Metered) (u : PlanLimits.UsageLimits) :
  canCreate q (Some u) = hasQuota (limitOf q u) (usedOf q u) 0.
Proof.
  unfold hasQuota, unlimited; rewrite Z.add_0_r.
  destruct q; simpl;
    match goal with |- context [?l =? -1] => destruct (l =? -1) end; reflexivity.
Qed.

(** The modal-raising check answers as the plain one. *)
Lemma checkLimit_answer (q : Metered) (u : PlanLimits.UsageLimits) (st : UpgradeState) :
  fst (checkLimit q (Some u) st) = canCreate q (Some u).
Proof.
  destruct q; simpl;
    match goal with |- context [?l =? -1] => destruct (l =? -1) end;
    try reflexivity;
    rewrite Z.geb_leb;
    match goal with
    | |- context [?a <=? ?b] =>
        destruct (Z.leb_spec a b); destruct (Z.ltb_spec b a);
        try reflexivity; lia
    end.
Qed.

Lemma hasQuota_no_add_on_iff (limit used : Z) :
  hasQuota limit used 0 = true <-> limit = unlimited \/ used < limit.
Proof.
  unfold hasQuota; rewrite Z.add_0_r, orb_true_iff, Z.eqb_eq, Z.ltb_lt.
  reflexivity.
Qed.

(** The context a blocking check stores: the reason of the resource, the
    two counters, and the plan the helper of that resource names. *)
Lemma checkLimit_blocked (q : Metered) (u : PlanLimits.UsageLimits) (st : UpgradeState) :
  fst (checkLimit q (Some u) st) = false ->
  snd (checkLimit q (Some u) st) =
  {| isOpen := true;
     context := Some {| reason := reasonOf q;
                        currentValue := Some (usedOf q u);
                        limitValue := Some (limitOf q u);
                        featureName := None;
                        suggestedPlan :=
                          Some (match q with Agents => "pro" | _ => "starter" end);
                        customMessage := None |} |}.
Proof.
  destruct q; simpl;
    match goal with |- context [?l =? -1] => destruct (l =? -1) end;
    try discriminate;
    match goal with |- context [?a >=? ?b] => destruct (a >=? b) end;
    simpl; intros H; try discriminate H; reflexivity.
Qed.

(** A check that lets the action through leaves the store as it was. *)
Lemma checkLimit_allowed (q : Metered) (u : option PlanLimits.UsageLimits)
    (st : UpgradeState) :
  fst (checkLimit q u st) = true -> snd (checkLimit q u st) = st.
Proof.
  destruct u as [u|]; [| destruct q; reflexivity].
  destruct q; simpl;
    match goal with |- context [?l =? -1] => destruct (l =? -1) end;
    try reflexivity;
    match goal with |- context [?a >=? ?b] => destruct (a >=? b) end;
    simpl; intros H; try discriminate H; reflexivity.
Qed.

(** The scenario of a Free-tier user who has used 50 leads out of 50. *)
Example free_tier_leads_blocked :
  PlanLimits.checkLeadsLimit (Some (freeSnapshot 50 0 0)) initialState =
  (false,
   {| isOpen := true;
      context := Some {| reason := leads_limit;
                         currentValue := Some 50;
                         limitValue := Some 50;
                         featureName := None;
                         suggestedPlan := Some "starter";
                         customMessage := None |} |}).
Proof. reflexivity. Qed.

(** For leads and campaigns the plan of the stored context is the entry of
    the reason-to-plan table. *)
Lemma blocked_suggestion_is_table_entry (q : Metered) (u : PlanLimits.UsageLimits)
    (st : UpgradeState) :
  q <> Agents ->
  fst (checkLimit q (Some u) st) = false ->
  exists ctx,
    context (snd (checkLimit q (Some u) st)) = Some ctx /\
    suggestedPlan ctx = Some (MINIMUM_PLAN_FOR_FEATURE (reason ctx)).
Proof.
  intros Hq Hblocked.
  rewrite (checkLimit_blocked q u st Hblocked); simpl.
  eexists; split; [reflexivity |].
  destruct q; [reflexivity | contradiction | reflexivity].
Qed.

(** C2 (at the failing input).  A Free-tier user with 1 agent out of 1: the
    agents check blocks and stores a context whose reason is [agents_limit]
    and whose suggested plan is pro, while the reason-to-plan table gives
    starter for [agents_limit]. *)
Theorem agents_gate_departs_from_table :
  exists ctx : UpgradeContext,
    PlanLimits.checkAgentsLimit (Some (freeSnapshot 0 1 0)) initialState
      = (false, {| isOpen := true; context := Some ctx |}) /\
    reason ctx = agents_limit /\
    currentValue ctx = Some 1 /\
    limitValue ctx = Some 1 /\
    suggestedPlan ctx = Some "pro" /\
    MINIMUM_PLAN_FOR_FEATURE (reason ctx) = "starter" /\
    suggestedPlan ctx <> Some (MINIMUM_PLAN_FOR_FEATURE (reason ctx)).
Proof.
  eexists; split; [reflexivity |].
  simpl; repeat split; discriminate.
Qed.

(** C3.  Once the snapshot is loaded, each quota check of each metered
    resource reports quota iff the limit is the unlimited sentinel or the
    used count is strictly below the limit.  In particular: limit 500 with
    500 used is no quota, with 499 used it is quota, and an unlimited limit
    is quota whatever the used count. *)
Theorem quota_check_iff :
  forall (q : Metered) (u : PlanLimits.UsageLimits) (st : UpgradeState),
    (canCreate q (Some u) = true <->
       limitOf q u = unlimited \/ usedOf q u < limitOf q u) /\
    (fst (checkLimit q (Some u) st) = true <->
       limitOf q u = unlimited \/ usedOf q u < limitOf q u) /\
    (limitOf q u = 500 -> usedOf q u = 500 ->
       canCreate q (Some u) = false /\ fst (checkLimit q (Some u) st) = false) /\
    (limitOf q u = 500 -> usedOf q u = 499 ->
       canCreate q (Some u) = true /\ fst (checkLimit q (Some u) st) = true) /\
    (limitOf q u = unlimited ->
       canCreate q (Some u) = true /\ fst (checkLimit q (Some u) st) = true).
Proof.
  intros q u st.
  rewrite checkLimit_answer, canCreate_loaded.
  pose proof (hasQuota_no_add_on_iff (limitOf q u) (usedOf q u)) as Hiff.
  split; [exact Hiff |]. split; [exact Hiff |].
  split; [| split].
  - intros Hl Hu.
    assert (H : hasQuota (limitOf q u) (usedOf q u) 0 <> true).
    { rewrite Hiff; unfold unlimited; lia. }
    split; now apply not_true_is_false.
  - intros Hl Hu.
    assert (H : hasQuota (limitOf q u) (usedOf q u) 0 = true).
    { apply Hiff; right; lia. }
    now split.
  - intros Hl.
    assert (H : hasQuota (limitOf q u) (usedOf q u) 0 = true).
    { apply Hiff; now left. }
    now split.
Qed.

Lemma quota_check_iff_witness :
  canCreate Leads (Some (leadsSnapshot "starter" 500 500 0)) = false /\
  canCreate Leads (Some (leadsSnapshot "starter" 500 499 1)) = true /\
  canCreate Leads (Some (leadsSnapshot "scale" (-1) 1000000 (-1))) = true.
Proof.
  split; [| split].
  - destruct (quota_check_iff Leads (leadsSnapshot "starter" 500 500 0) initialState)
      as [_ [_ [H _]]].
    exact (proj1 (H eq_refl eq_refl)).
  - destruct (quota_check_iff Leads (leadsSnapshot "starter" 500 499 1) initialState)
      as [_ [_ [_ [H _]]]].
    exact (proj1 (H eq_refl eq_refl)).
  - destruct (quota_check_iff Leads (leadsSnapshot "scale" (-1) 1000000 (-1)) initialState)
      as [_ [_ [_ [_ H]]]].
    exact (proj1 (H eq_refl)).
Defined.

(** C4 (as stated) fails: with limit 500 and 500 used the leads check
    reports no quota, although with an add-on of 500 the evaluator of the
    specification has 500 remaining and reports quota. *)
Lemma canCreateLead_has_no_add_on :
  remaining 500 500 500 = 500 /\
  hasQuota 500 500 500 = true /\
  PlanLimits.canCreateLead (Some (leadsSnapshot "starter" 500 500 500)) = false.
Proof. repeat split; reflexivity. Qed.

(** C4 (as the code has it).  The leads checks have no add-on term: they
    are the evaluator of the specification at add-on zero, applied to the
    limit and the used count of the snapshot.  So limit 500 with 500 used
    is no quota, and purchased quota counts only once the limit of the
    snapshot itself includes it: limit 1000 with 500 used is quota. *)
Theorem canCreateLead_reads_limit_and_used_only :
  forall (u : PlanLimits.UsageLimits) (st : UpgradeState),
    PlanLimits.canCreateLead (Some u)
      = hasQuota (PlanLimits.leads_limit u) (PlanLimits.leads_used u) 0 /\
    fst (PlanLimits.checkLeadsLimit (Some u) st) = PlanLimits.canCreateLead (Some u) /\
    (PlanLimits.leads_limit u = 500 -> PlanLimits.leads_used u = 500 ->
       PlanLimits.canCreateLead (Some u) = false) /\
    (PlanLimits.leads_limit u = 1000 -> PlanLimits.leads_used u = 500 ->
       PlanLimits.canCreateLead (Some u) = true).
Proof.
  intros u st.
  assert (Hc : PlanLimits.canCreateLead (Some u)
               = hasQuota (PlanLimits.leads_limit u) (PlanLimits.leads_used u) 0)
    by exact (canCreate_loaded Leads u).
  assert (Ha : fst (PlanLimits.checkLeadsLimit (Some u) st)
               = PlanLimits.canCreateLead (Some u))
    by exact (checkLimit_answer Leads u st).
  split; [exact Hc |]. split; [exact Ha |].
  split; intros Hl Hu; rewrite Hc, Hl, Hu; reflexivity.
Qed.

Lemma canCreateLead_reads_limit_and_used_only_witness :
  PlanLimits.canCreateLead (Some (leadsSnapshot "starter" 500 500 500)) = false /\
  PlanLimits.canCreateLead (Some (leadsSnapshot "starter" 1000 500 500)) = true.
Proof.
  split.
  - destruct (canCreateLead_reads_limit_and_used_only
                (leadsSnapshot "starter" 500 500 500) initialState) as [_ [_ [H _]]].
    exact (H eq_refl eq_refl).
  - destruct (canCreateLead_reads_limit_and_used_only
                (leadsSnapshot "starter" 1000 500 500) initialState) as [_ [_ [_ H]]].
    exact (H eq_refl eq_refl).
Defined.

(** C8.  While the snapshot is not loaded every gate lets the action
    through, whatever its arguments, and leaves the upgrade store alone. *)
Theorem gates_fail_open_when_not_loaded :
  forall (toUpperCase : string -> string) (st : UpgradeState)
         (feature : PlanLimits.UsageKey) (featureName suggestedPlan : string),
    PlanLimits.canCreateLead None = true /\
    PlanLimits.canCreateAgent None = true /\
    PlanLimits.canCreateCampaign None = true /\
    PlanLimits.checkLeadsLimit None st = (true, st) /\
    PlanLimits.checkAgentsLimit None st = (true, st) /\
    PlanLimits.checkCampaignsLimit None st = (true, st) /\
    PlanLimits.checkFeature toUpperCase None feature featureName suggestedPlan st
      = (true, st).
Proof. intros; repeat split. Qed.

End QuotaGates.

(** ** Classification of a rejection message *)

Section Substrings.

Import Spec.

Lemma prefix_iff_append (a b : string) :
  String.prefix a b = true <-> exists post : string, b = a ++ post.
Proof.
  revert b; induction a as [|c a IH]; intros b.
  - destruct b; simpl; split; intros _; try reflexivity; eexists; reflexivity.
  - destruct b as [|d b]; simpl.
    + split; [discriminate | intros [post H]; discriminate H].
    + destruct (ascii_dec c d) as [->|Hcd].
      * rewrite IH; split; intros [post H]; exists post; congruence.
      * split; [discriminate | intros [post H]; congruence].
Qed.

Lemma includes_nil (kw : string) :
  Js.includes "" kw = String.prefix kw "".
Proof. destruct kw; reflexivity. Qed.

Lemma includes_cons (c : ascii) (s kw : string) :
  Js.includes (String c s) kw = String.prefix kw (String c s) || Js.includes s kw.
Proof.
  change (Js.includes (String c s) kw)
    with (if String.prefix kw (String c s) then true else Js.includes s kw).
  now destruct (String.prefix kw (String c s)).
Qed.

Lemma includes_iff_Occurs (s kw : string) :
  Js.includes s kw = true <-> Occurs kw s.
Proof.
  unfold Occurs; induction s as [|c s IH].
  - rewrite includes_nil, prefix_iff_append; split.
    + intros [post H]; exists "", post; exact H.
    + intros [pre [post H]].
      destruct pre; [exists post; exact H | discriminate H].
  - rewrite includes_cons, orb_true_iff, IH, prefix_iff_append; split.
    + intros [[post H] | [pre [post H]]].
      * exists "", post; exact H.
      * exists (String c pre), post; simpl; congruence.
    + intros [pre [post H]].
      destruct pre as [|c' pre]; simpl in H.
      * left; exists post; exact H.
      * right; exists pre, post; congruence.
Qed.

Lemma includes_false_iff (s kw : string) :
  Js.includes s kw = false <-> ~ Occurs kw s.
Proof.
  rewrite <- includes_iff_Occurs.
  destruct (Js.includes s kw); split; congruence.
Qed.

(** The scan answers [general] exactly when it runs off the end of a table
    none of whose reasons is [general]. *)
Lemma firstMatch_general_iff
    (entries : list (string * UpgradeStore.UpgradeReason)) (m : string) :
  Forall (fun e => snd e <> UpgradeStore.general) entries ->
  (Api.firstMatch entries m = UpgradeStore.general <->
   Forall (fun e => ~ Occurs (fst e) m) entries).
Proof.
  induction 1 as [|[kw r] rest Hr _ IH]; simpl.
  - split; [constructor | reflexivity].
  - destruct (Js.includes m kw) eqn:E.
    + split; [intros ->; now elim Hr |].
      intros Hall; inversion Hall as [|? ? Hkw _]; subst.
      apply includes_iff_Occurs in E; now elim Hkw.
    + rewrite IH; split.
      * intros Hall; constructor; [now apply includes_false_iff | exact Hall].
      * intros Hall; now inversion Hall.
Qed.

(** The scan answers with the reason of the first keyword that occurs. *)
Lemma firstMatch_first_hit
    (before after : list (string * UpgradeStore.UpgradeReason))
    (kw m : string) (r : UpgradeStore.UpgradeReason) :
  Forall (fun e => ~ Occurs (fst e) m) before ->
  Occurs kw m ->
  Api.firstMatch (before ++ (kw, r) :: after) m = r.
Proof.
  induction 1 as [|[kw' r'] rest Hkw' _ IH]; intros Hkw; simpl.
  - apply includes_iff_Occurs in Hkw; now rewrite Hkw.
  - apply includes_false_iff in Hkw'; simpl in Hkw'; rewrite Hkw'; now apply IH.
Qed.

Lemma table_reasons_not_general :
  Forall (fun e => snd e <> UpgradeStore.general) Api.ERROR_TO_UPGRADE_REASON.
Proof. repeat constructor; discriminate. Qed.

Variable toLowerCase : string -> string.

(** C7.  [detectUpgradeReason] lower-cases the message and answers
    [general] iff no keyword of the table occurs in the lower-cased message;
    messages that are equal up to letter case get the same answer; and a
    message in which "limite de agentes" occurs, and neither of the two
    keywords before it in the table does, is classified [agents_limit]. *)
Theorem detectUpgradeReason_keyword_match :
  forall msg : string,
    (Api.detectUpgradeReason toLowerCase msg = UpgradeStore.general <->
     forall (kw : string) (r : UpgradeStore.UpgradeReason),
       In (kw, r) Api.ERROR_TO_UPGRADE_REASON -> ~ Occurs kw (toLowerCase msg)) /\
    (forall msg' : string,
       toLowerCase msg' = toLowerCase msg ->
       Api.detectUpgradeReason toLowerCase msg' = Api.detectUpgradeReason toLowerCase msg) /\
    (Occurs "limite de agentes" (toLowerCase msg) ->
     ~ Occurs "limite de leads" (toLowerCase msg) ->
     ~ Occurs "limite de prospects" (toLowerCase msg) ->
     Api.detectUpgradeReason toLowerCase msg = UpgradeStore.agents_limit).
Proof.
  intros msg; unfold Api.detectUpgradeReason.
  split; [| split].
  - rewrite (firstMatch_general_iff _ _ table_reasons_not_general), Forall_forall.
    split.
    + intros H kw r Hin; exact (H (kw, r) Hin).
    + intros H [kw r] Hin; exact (H kw r Hin).
  - intros msg' ->; reflexivity.
  - intros Hagents Hleads Hprospects.
    apply (firstMatch_first_hit
             [("limite de leads", UpgradeStore.leads_limit);
              ("limite de prospects", UpgradeStore.leads_limit)]);
      [repeat constructor; assumption | exact Hagents].
Qed.

End Substrings.

Lemma detectUpgradeReason_keyword_match_witness :
  Api.detectUpgradeReason Latin.toLowerCase "Limite de Agentes atingido"
  = UpgradeStore.agents_limit.
Proof.
  apply (detectUpgradeReason_keyword_match Latin.toLowerCase "Limite de Agentes atingido").
  - apply includes_iff_Occurs; reflexivity.
  - apply includes_false_iff; reflexivity.
  - apply includes_false_iff; reflexivity.
Defined.

(** ** The stored context always names a plan *)

Section StoredContext.

Import UpgradeStore.

Lemma minimum_plan_nonempty (r : UpgradeReason) : MINIMUM_PLAN_FOR_FEATURE r <> "".
Proof. destruct r; discriminate. Qed.

Lemma or_else_nonempty (a : option string) (b : string) :
  b <> "" -> Js.or_else a b <> "".
Proof.
  intros Hb; destruct a as [s|]; simpl; [| exact Hb].
  unfold Js.truthy_string; destruct (String.eqb_spec s ""); simpl; assumption.
Qed.

Lemma or_else_some (s b : string) : s <> "" -> Js.or_else (Some s) b = s.
Proof.
  intros Hs; unfold Js.or_else, Js.truthy_string.
  destruct (String.eqb_spec s ""); [contradiction | reflexivity].
Qed.

(** C10.  After [openUpgradeModal] the store holds a context with a
    suggested plan that is defined and not empty; it is the caller's when
    the caller gave one, and the entry of the reason-to-plan table for the
    context's reason when the caller left it out.  The call made by the
    response interceptor on a 403 stores the table entry of the reason it
    detected. *)
Theorem openUpgradeModal_defines_suggestedPlan :
  (forall (ctx : UpgradeContext) (st : UpgradeState),
     exists (c : UpgradeContext) (p : string),
       context (openUpgradeModal ctx st) = Some c /\
       reason c = reason ctx /\
       suggestedPlan c = Some p /\
       p <> "" /\
       (suggestedPlan ctx = None -> p = MINIMUM_PLAN_FOR_FEATURE (reason ctx)) /\
       (forall s : string, suggestedPlan ctx = Some s -> s <> "" -> p = s)) /\
  (forall (toLowerCase : string -> string) (detail : option string) (st : UpgradeState),
     exists c : UpgradeContext,
       context (Api.onResponseError toLowerCase true (Some 403) detail st) = Some c /\
       reason c = Api.detectUpgradeReason toLowerCase (Js.or_else detail "") /\
       suggestedPlan c = Some (MINIMUM_PLAN_FOR_FEATURE (reason c))).
Proof.
  split.
  - intros ctx st.
    eexists; eexists; split; [reflexivity |]; simpl.
    split; [reflexivity |]. split; [reflexivity |].
    split; [apply or_else_nonempty, minimum_plan_nonempty |].
    split.
    + intros ->; reflexivity.
    + intros s -> Hs; now apply or_else_some.
  - intros toLowerCase detail st.
    eexists; split; [reflexivity |]; simpl.
    split; [reflexivity |].
    f_equal; apply or_else_some, minimum_plan_nonempty.
Qed.

Lemma openUpgradeModal_defines_suggestedPlan_witness :
  exists c : UpgradeContext,
    context (openUpgradeModal
               {| reason := sso; currentValue := None; limitValue := None;
                  featureName := None; suggestedPlan := None;
                  customMessage := None |} initialState) = Some c /\
    suggestedPlan c = Some "scale".
Proof.
  destruct (proj1 openUpgradeModal_defines_suggestedPlan
              {| reason := sso; currentValue := None; limitValue := None;
                 featureName := None; suggestedPlan := None;
                 customMessage := None |} initialState)
    as [c [p [Hc [_ [Hp [_ [Hnone _]]]]]]].
  exists c; split; [exact Hc |].
  rewrite Hp, (Hnone eq_refl); reflexivity.
Defined.

End StoredContext.

(** ** Monotonicity of the plan table *)

Section Catalog.

Import UpgradeStore Spec.

Lemma quota_leb_never_stricter (a b : PlanCatalog.Quota) :
  PlanCatalog.quota_leb a b = true <-> never_stricter a b.
Proof.
  unfold never_stricter; destruct a as [x|], b as [y|]; simpl.
  - rewrite Z.leb_le; split.
    + intros H; right; exists x, y; auto.
    + intros [H | [x' [y' [Hx [Hy H]]]]]; [discriminate | congruence].
  - split; [now left | reflexivity].
  - split; [discriminate |].
    intros [H | [x' [y' [Hx _]]]]; discriminate.
  - split; [now left | reflexivity].
Qed.

Lemma featureStatus_keeps (fs1 fs2 : list PlanCatalog.Feature) :
  keeps_features fs1 fs2 ->
  forall f : string,
    PlanCatalog.featureStatus fs1 f = true -> PlanCatalog.featureStatus fs2 f = true.
Proof.
  unfold PlanCatalog.featureStatus.
  induction 1 as [|a b fs1 fs2 [Hname Hincl] _ IH]; intros f; simpl.
  - discriminate.
  - rewrite <- Hname.
    destruct (String.eqb (PlanCatalog.name a) f); [exact Hincl | apply IH].
Qed.

Lemma getPlanFeatureStatus_featuresOf (t : PlanTier) (f : string) :
  PlanCatalog.getPlanFeatureStatus (tier_id t) f
  = PlanCatalog.featureStatus (featuresOf t) f.
Proof. destruct t; reflexivity. Qed.

Ltac keeps_features_by_inspection :=
  unfold keeps_features; vm_compute featuresOf;
  repeat first
    [ apply Forall2_nil
    | apply Forall2_cons;
      [ split; [reflexivity | simpl; intros H; solve [reflexivity | discriminate H]] | ] ].

Lemma featuresOf_keeps (t1 t2 : PlanTier) :
  ordinal (tier_id t1) < ordinal (tier_id t2) ->
  keeps_features (featuresOf t1) (featuresOf t2).
Proof.
  rewrite !ordinal_tier_id.
  destruct t1, t2; intros Hlt; try lia; keeps_features_by_inspection.
Qed.

(** C9.  The plan table is monotone: between a tier and any tier above it,
    a feature the lower tier includes is included by the higher one, and
    each of the three limits (prospects, agents, campaigns) of the higher
    tier is unlimited, or the same number or a larger one. *)
Theorem catalog_monotone :
  forall t1 t2 : PlanTier,
    ordinal (tier_id t1) < ordinal (tier_id t2) ->
    (forall f : string,
       PlanCatalog.getPlanFeatureStatus (tier_id t1) f = true ->
       PlanCatalog.getPlanFeatureStatus (tier_id t2) f = true) /\
    (forall r : PlanCatalog.Resource,
       exists a b : PlanCatalog.Quota,
         PlanCatalog.quotaAt r (tier_id t1) = Some a /\
         PlanCatalog.quotaAt r (tier_id t2) = Some b /\
         never_stricter a b).
Proof.
  intros t1 t2 Hlt; split.
  - intros f; rewrite !getPlanFeatureStatus_featuresOf.
    apply featureStatus_keeps, featuresOf_keeps, Hlt.
  - intros r.
    rewrite !ordinal_tier_id in Hlt.
    destruct t1, t2; try lia; destruct r;
      (eexists; eexists; split; [reflexivity |]; split; [reflexivity |];
       apply quota_leb_never_stricter; reflexivity).
Qed.

Lemma catalog_monotone_witness :
  ordinal (tier_id starter) < ordinal (tier_id scale) /\
  PlanCatalog.getPlanFeatureStatus "scale" "Relatórios de Funil" = true /\
  exists a b : PlanCatalog.Quota,
    PlanCatalog.quotaAt PlanCatalog.Agents "starter" = Some a /\
    PlanCatalog.quotaAt PlanCatalog.Agents "scale" = Some b /\
    never_stricter a b.
Proof.
  assert (Hlt : ordinal (tier_id starter) < ordinal (tier_id scale)) by reflexivity.
  destruct (catalog_monotone starter scale Hlt) as [Hf Hq].
  split; [exact Hlt |].
  split; [exact (Hf "Relatórios de Funil" eq_refl) | exact (Hq PlanCatalog.Agents)].
Defined.

End Catalog.

(** ** Further properties of the upgrade store *)

Section UpgradeStoreMore.

Import UpgradeStore.

Lemma indexOf_from_absent (x : string) (l : list string) (i : Z) :
  ~ In x l -> Js.indexOf_from x l i = -1.
Proof.
  revert i; induction l as [|y l IH]; intros i Hnot; simpl; [reflexivity |].
  destruct (String.eqb_spec y x) as [->|_].
  - elim Hnot; now left.
  - apply IH; intros Hin; apply Hnot; now right.
Qed.

Lemma plan_cases (p : string) :
  p = "free" \/ p = "starter" \/ p = "pro" \/ p = "scale" \/ ~ In p planOrder.
Proof.
  destruct (in_dec string_dec p planOrder) as [Hin|Hnot]; [| tauto].
  simpl in Hin; intuition auto.
Qed.

Lemma getNextPlan_absent (p : string) : ~ In p planOrder -> getNextPlan p = None.
Proof.
  intros Hnot; unfold getNextPlan, Js.indexOf.
  now rewrite (indexOf_from_absent _ _ 0 Hnot).
Qed.

Lemma getSuggestedPlan_absent (p : string) (r : UpgradeReason) :
  ~ In p planOrder -> getSuggestedPlan p r = "scale".
Proof.
  intros Hnot; unfold getSuggestedPlan.
  now rewrite (getNextPlan_absent p Hnot).
Qed.

(** X1.  A current plan that is not one of the four names of [planOrder]
    has no next plan, and the plan suggested for it is scale whatever the
    reason. *)
Theorem unknown_plan_suggests_scale :
  forall (p : string) (r : UpgradeReason),
    ~ In p planOrder ->
    getNextPlan p = None /\ getSuggestedPlan p r = "scale".
Proof.
  intros p r Hnot; split.
  - now apply getNextPlan_absent.
  - now apply getSuggestedPlan_absent.
Qed.

Lemma unknown_plan_suggests_scale_witness :
  getNextPlan "enterprise" = None /\
  getSuggestedPlan "enterprise" leads_limit = "scale".
Proof.
  apply (unknown_plan_suggests_scale "enterprise" leads_limit).
  simpl; intros H; repeat (destruct H as [H|H]; [discriminate H |]); exact H.
Defined.

(** X2.  Whatever string it is given, [getNextPlan] answers with a plan
    only for free, starter and pro, and the answer is then the paid plan one
    position further in [planOrder]; it never answers free. *)
Theorem getNextPlan_is_successor :
  forall p n : string,
    getNextPlan p = Some n ->
    In p ["free"; "starter"; "pro"] /\
    In n ["starter"; "pro"; "scale"] /\
    ordinal n = ordinal p + 1.
Proof.
  intros p n H.
  destruct (plan_cases p) as [-> | [-> | [-> | [-> | Hnot]]]];
    try (rewrite (getNextPlan_absent _ Hnot) in H);
    vm_compute in H; try discriminate H;
    injection H as <-; simpl; intuition auto.
Qed.

Lemma getNextPlan_is_successor_witness :
  In "starter" ["free"; "starter"; "pro"] /\
  In "pro" ["starter"; "pro"; "scale"] /\
  ordinal "pro" = ordinal "starter" + 1.
Proof. apply (getNextPlan_is_successor "starter" "pro"); reflexivity. Defined.

(** X3.  Whatever the current plan (a known tier or any other string) and
    whatever the reason, the suggested plan is one of starter, pro and
    scale: the lookup of its details by the modal never misses. *)
Theorem getSuggestedPlan_is_paid_plan :
  forall (p : string) (r : UpgradeReason),
    In (getSuggestedPlan p r) ["starter"; "pro"; "scale"].
Proof.
  intros p r.
  destruct (plan_cases p) as [-> | [-> | [-> | [-> | Hnot]]]].
  1-4: destruct r; vm_compute; tauto.
  rewrite (getSuggestedPlan_absent p r Hnot); simpl; tauto.
Qed.

Lemma stepUpgrade_invariant (a : Notions.UpgradeAction) (st : UpgradeState) :
  Notions.store_invariant (Notions.stepUpgrade a st).
Proof.
  destruct a; simpl; split; simpl;
    try (split; [discriminate | reflexivity]);
    try (split; [discriminate | intros H; now elim H]);
    intros ctx' H; inversion H; subst; simpl; discriminate.
Qed.

(** X4.  After any run of actions from the initial state the modal is open
    iff the store holds a context, and a context in the store always names a
    suggested plan. *)
Theorem upgrade_store_invariant :
  forall acts : list Notions.UpgradeAction,
    Notions.store_invariant (Notions.runUpgrade acts initialState).
Proof.
  intros acts; unfold Notions.runUpgrade.
  induction acts as [|a acts IH] using rev_ind.
  - split; simpl; [split; [discriminate | intros H; now elim H] | discriminate].
  - rewrite fold_left_app; simpl; apply stepUpgrade_invariant.
Qed.

End UpgradeStoreMore.

(** ** What the upgrade modal shows *)

Section ModalContents.

Import UpgradeStore.

Lemma availablePlans_absent (p : string) :
  ~ In p planOrder -> UpgradeModal.availablePlans p = ["starter"; "pro"; "scale"].
Proof.
  intros Hnot; unfold UpgradeModal.availablePlans, Js.indexOf.
  change ["free"; "starter"; "pro"; "scale"] with planOrder.
  now rewrite (indexOf_from_absent _ _ 0 Hnot).
Qed.

Lemma suggested_is_available (p : string) (r : UpgradeReason) :
  p <> "scale" -> In (getSuggestedPlan p r) (UpgradeModal.availablePlans p).
Proof.
  intros Hp.
  destruct (plan_cases p) as [-> | [-> | [-> | [-> | Hnot]]]].
  1-3: destruct r; vm_compute; tauto.
  - now elim Hp.
  - rewrite (availablePlans_absent p Hnot), (getSuggestedPlan_absent p r Hnot).
    simpl; tauto.
Qed.

(** X5.  The plans the modal offers are empty exactly for a scale user;
    for every other current plan (a known tier or not) the plan it
    recommends is one of the plans it offers. *)
Theorem recommended_plan_is_offered :
  forall (p : string) (r : UpgradeReason),
    (UpgradeModal.availablePlans p = [] <-> p = "scale") /\
    (p <> "scale" -> In (getSuggestedPlan p r) (UpgradeModal.availablePlans p)).
Proof.
  intros p r; split; [| apply suggested_is_available].
  destruct (plan_cases p) as [-> | [-> | [-> | [-> | Hnot]]]].
  1-3: split; discriminate.
  - split; reflexivity.
  - rewrite (availablePlans_absent p Hnot).
    split; [discriminate | intros ->; elim Hnot; simpl; tauto].
Qed.

Lemma recommended_plan_is_offered_witness :
  In (getSuggestedPlan "starter" sso) (UpgradeModal.availablePlans "starter").
Proof.
  apply (recommended_plan_is_offered "starter" sso); discriminate.
Defined.

(** X6.  The list of other plans is rendered for every current plan but pro
    and scale; it never repeats the recommended plan, every plan in it is
    strictly above a known current tier, and together with the recommended
    plan it makes up the plans on offer. *)
Theorem other_plans_complete_the_offer :
  forall (p : string) (r : UpgradeReason),
    let suggested := getSuggestedPlan p r in
    let others := UpgradeModal.otherPlans p suggested in
    (UpgradeModal.showsOtherPlans p = true <-> p <> "pro" /\ p <> "scale") /\
    ~ In suggested others /\
    (forall q, In q others -> In p planOrder -> ordinal p < ordinal q) /\
    (forall q, In q (UpgradeModal.availablePlans p) <-> q = suggested /\ p <> "scale" \/ In q others).
Proof.
  intros p r suggested others.
  assert (Hothers : forall q, In q others <->
                      In q (UpgradeModal.availablePlans p) /\ q <> suggested).
  { intros q; unfold others, UpgradeModal.otherPlans.
    rewrite filter_In, negb_true_iff.
    destruct (String.eqb_spec q suggested); split; intros [H1 H2];
      split; congruence. }
  split; [| split; [| split]].
  - destruct (plan_cases p) as [-> | [-> | [-> | [-> | Hnot]]]].
    1-2: split; [intros _; split; discriminate | reflexivity].
    1-2: split; [discriminate | intros [H1 H2]; congruence].
    unfold UpgradeModal.showsOtherPlans; rewrite (availablePlans_absent p Hnot).
    split; [intros _ | reflexivity].
    split; intros ->; apply Hnot; simpl; tauto.
  - rewrite Hothers; intros [_ H]; now elim H.
  - intros q Hq Hin; apply Hothers in Hq; destruct Hq as [Hq _].
    unfold UpgradeModal.availablePlans in Hq.
    apply filter_In in Hq; destruct Hq as [_ Hq].
    apply Z.gtb_lt in Hq; exact Hq.
  - intros q; rewrite Hothers; split.
    + intros Hq; destruct (string_dec q suggested) as [->|Hne]; [left | right; tauto].
      split; [reflexivity |].
      intros ->; vm_compute in Hq; exact Hq.
    + intros [[-> Hp] | [Hq _]]; [| exact Hq].
      now apply suggested_is_available.
Qed.

Lemma other_plans_complete_the_offer_witness :
  UpgradeModal.showsOtherPlans "free" = true /\
  UpgradeModal.otherPlans "free" (getSuggestedPlan "free" crm_integration)
  = ["starter"; "scale"].
Proof.
  split; [| reflexivity].
  apply (other_plans_complete_the_offer "free" crm_integration); split; discriminate.
Defined.

End ModalContents.

(** ** Further properties of the gates *)

Section GatesMore.

Import UpgradeStore Spec.

(** X7.  A modal-raising quota check answers as the plain check of its
    resource, loaded snapshot or not.  When it lets the action through it
    leaves the upgrade store alone; when it blocks, the snapshot is loaded,
    its used count has reached a limit that is not the unlimited sentinel,
    and the store holds the open modal with the resource's reason and the two
    counters. *)
Theorem quota_check_store_effect :
  forall (q : Metered) (u : option PlanLimits.UsageLimits) (st : UpgradeState),
    fst (checkLimit q u st) = canCreate q u /\
    (fst (checkLimit q u st) = true -> snd (checkLimit q u st) = st) /\
    (fst (checkLimit q u st) = false ->
     exists (snap : PlanLimits.UsageLimits) (ctx : UpgradeContext),
       u = Some snap /\
       limitOf q snap <> unlimited /\
       limitOf q snap <= usedOf q snap /\
       snd (checkLimit q u st) = {| isOpen := true; context := Some ctx |} /\
       reason ctx = reasonOf q /\
       currentValue ctx = Some (usedOf q snap) /\
       limitValue ctx = Some (limitOf q snap)).
Proof.
  intros q u st.
  split; [| split].
  - destruct u as [snap|]; [apply checkLimit_answer | destruct q; reflexivity].
  - apply checkLimit_allowed.
  - destruct u as [snap|]; [| destruct q; discriminate].
    intros Hblocked.
    pose proof (checkLimit_blocked q snap st Hblocked) as Hst.
    rewrite checkLimit_answer, canCreate_loaded in Hblocked.
    assert (Hno : ~ (limitOf q snap = unlimited \/ usedOf q snap < limitOf q snap)).
    { rewrite <- hasQuota_no_add_on_iff; congruence. }
    eexists; eexists; split; [reflexivity |].
    split; [tauto |]. split; [lia |].
    split; [exact Hst |]. repeat split.
Qed.

Lemma quota_check_store_effect_witness :
  snd (PlanLimits.checkCampaignsLimit (Some (freeSnapshot 0 0 0)) initialState)
  = initialState.
Proof.
  apply (quota_check_store_effect Campaigns (Some (freeSnapshot 0 0 0)) initialState).
  reflexivity.
Defined.

(** X8.  On a loaded snapshot [checkFeature] answers with the truthiness
    of the field it is asked about: a flag as it is, a counter or limit iff
    it is not zero (so the unlimited sentinel passes), the tier name iff it
    is not empty.  When it lets through it leaves the store alone; when it
    blocks, the stored context has the reason [general] whatever the
    feature, carries the feature's name and the message built from it, and
    suggests the plan it was given (starter when that is empty). *)
Theorem checkFeature_loaded :
  forall (toUpperCase : string -> string) (u : PlanLimits.UsageLimits)
         (feature : PlanLimits.UsageKey) (featureName plan : string)
         (st : UpgradeState),
    let result := PlanLimits.checkFeature toUpperCase (Some u) feature featureName plan st in
    fst result = Js.truthy (PlanLimits.get u feature) /\
    (fst result = true -> snd result = st) /\
    (fst result = false ->
     snd result =
     {| isOpen := true;
        context :=
          Some {| reason := general;
                  currentValue := None;
                  limitValue := None;
                  featureName := Some featureName;
                  suggestedPlan := Some (if Js.truthy_string plan then plan else "starter");
                  customMessage :=
                    Some (PlanLimits.customMessageFor toUpperCase featureName plan) |} |}).
Proof.
  intros toUpperCase u feature name plan st result.
  unfold result, PlanLimits.checkFeature.
  destruct (Js.truthy (PlanLimits.get u feature)); simpl.
  - split; [reflexivity |]; split; [reflexivity | discriminate].
  - split; [reflexivity |]; split; [discriminate | reflexivity].
Qed.

Lemma checkFeature_loaded_witness :
  snd (PlanLimits.checkFeature Latin.toUpperCase (Some (freeSnapshot 0 0 0))
         PlanLimits.K_leads_limit "Leads" "starter" initialState)
  = initialState.
Proof.
  apply (checkFeature_loaded Latin.toUpperCase (freeSnapshot 0 0 0)
           PlanLimits.K_leads_limit "Leads" "starter" initialState).
  reflexivity.
Defined.

(** X9.  The submit handler of the campaign form goes on to post iff the
    campaigns check passes and, for the whatsapp channel, the snapshot has
    WhatsApp enabled; before the snapshot is loaded it always goes on.  A
    handler that goes on has not touched the upgrade store.  The campaigns
    check comes first: when it blocks, the modal shows the campaigns limit
    even if WhatsApp is missing too. *)
Theorem submitGate_decides :
  forall (toUpperCase : string -> string) (u : PlanLimits.UsageLimits)
         (channel : string) (st : UpgradeState),
    let result := CampaignCreate.submitGate toUpperCase (Some u) channel st in
    fst result =
      PlanLimits.canCreateCampaign (Some u) &&
      (negb (String.eqb channel "whatsapp") || PlanLimits.whatsapp_enabled u) /\
    (fst result = true -> snd result = st) /\
    (PlanLimits.canCreateCampaign (Some u) = false ->
     exists ctx, context (snd result) = Some ctx /\ reason ctx = campaigns_limit) /\
    CampaignCreate.submitGate toUpperCase None channel st = (true, st).
Proof.
  intros toUpperCase u channel st result.
  assert (Hnone : CampaignCreate.submitGate toUpperCase None channel st = (true, st)).
  { unfold CampaignCreate.submitGate; simpl.
    destruct (String.eqb channel "whatsapp"); reflexivity. }
  enough (Hmain :
    fst result =
      PlanLimits.canCreateCampaign (Some u) &&
      (negb (String.eqb channel "whatsapp") || PlanLimits.whatsapp_enabled u) /\
    (fst result = true -> snd result = st) /\
    (PlanLimits.canCreateCampaign (Some u) = false ->
     exists ctx, context (snd result) = Some ctx /\ reason ctx = campaigns_limit))
    by (destruct Hmain as [H1 [H2 H3]]; auto).
  clear Hnone.
  pose proof (checkLimit_answer Campaigns u st) as Hans.
  pose proof (checkLimit_allowed Campaigns (Some u) st) as Hall.
  pose proof (checkLimit_blocked Campaigns u st) as Hblk.
  change (canCreate Campaigns (Some u)) with (PlanLimits.canCreateCampaign (Some u)) in Hans.
  change (checkLimit Campaigns) with PlanLimits.checkCampaignsLimit in *.
  unfold result, CampaignCreate.submitGate.
  remember (PlanLimits.canCreateCampaign (Some u)) as can eqn:Hcan.
  destruct (PlanLimits.checkCampaignsLimit (Some u) st) as [ok st1] eqn:E.
  cbn [fst snd] in Hans, Hall, Hblk; subst ok.
  destruct can; cbn [negb andb fst snd].
  - rewrite (Hall eq_refl).
    destruct (String.eqb channel "whatsapp"); cbn [negb orb].
    + unfold PlanLimits.checkWhatsApp, PlanLimits.checkFeature.
      cbn [PlanLimits.get Js.truthy].
      destruct (PlanLimits.whatsapp_enabled u); cbn [negb fst snd].
      * split; [reflexivity |]; split; [reflexivity | discriminate].
      * split; [reflexivity |]; split; discriminate.
    + split; [reflexivity |]; split; [reflexivity | discriminate].
  - split; [reflexivity |]; split; [discriminate |].
    intros _; rewrite (Hblk eq_refl); cbn [context].
    eexists; split; reflexivity.
Qed.

Lemma submitGate_decides_witness :
  snd (CampaignCreate.submitGate Latin.toUpperCase (Some (freeSnapshot 0 0 0))
         "instagram" initialState) = initialState.
Proof.
  apply (submitGate_decides Latin.toUpperCase (freeSnapshot 0 0 0) "instagram" initialState).
  reflexivity.
Defined.

End GatesMore.

(** ** Further properties of the classification *)

Section ClassificationMore.

Import Spec.

Lemma append_assoc (a b c : string) : (a ++ b) ++ c = a ++ (b ++ c).
Proof. induction a as [|x a IH]; simpl; [reflexivity | now rewrite IH]. Qed.

Lemma Occurs_trans (a b m : string) : Occurs a b -> Occurs b m -> Occurs a m.
Proof.
  intros [p1 [q1 ->]] [p2 [q2 ->]].
  exists (p2 ++ p1), (q1 ++ q2).
  now rewrite !append_assoc.
Qed.

(** A non-[general] answer of the scan comes from an entry of the table
    whose keyword occurs, all entries before it being without occurrence. *)
Lemma firstMatch_hit
    (entries : list (string * UpgradeStore.UpgradeReason)) (m : string)
    (r : UpgradeStore.UpgradeReason) :
  Api.firstMatch entries m = r -> r <> UpgradeStore.general ->
  exists before kw after,
    entries = (before ++ (kw, r) :: after)%list /\
    Occurs kw m /\
    Forall (fun e => ~ Occurs (fst e) m) before.
Proof.
  induction entries as [|[kw' r'] rest IH]; simpl; intros Hr Hne.
  - congruence.
  - destruct (Js.includes m kw') eqn:E.
    + subst r'; exists [], kw', rest; split; [reflexivity |].
      split; [now apply includes_iff_Occurs | constructor].
    + destruct (IH Hr Hne) as [before [kw [after [-> [Hkw Hbefore]]]]].
      exists ((kw', r') :: before), kw, after; split; [reflexivity |].
      split; [exact Hkw |].
      constructor; [now apply includes_false_iff | exact Hbefore].
Qed.

(** An entry whose keyword contains the keyword of the entry right after
    it, with the same reason, can be dropped. *)
Lemma firstMatch_drop_long_form
    (before after : list (string * UpgradeStore.UpgradeReason))
    (long short m : string) (r : UpgradeStore.UpgradeReason) :
  Occurs short long ->
  Api.firstMatch (before ++ (long, r) :: (short, r) :: after) m
  = Api.firstMatch (before ++ (short, r) :: after) m.
Proof.
  intros Hsub; induction before as [|[kw' r'] before IH]; simpl.
  - destruct (Js.includes m long) eqn:El; [| reflexivity].
    apply includes_iff_Occurs in El.
    pose proof (Occurs_trans _ _ _ Hsub El) as Hs.
    apply includes_iff_Occurs in Hs; now rewrite Hs.
  - now rewrite IH.
Qed.

Variable toLowerCase : string -> string.

(** X10.  A classification other than [general] is always due to a keyword
    of the table that occurs in the lower-cased message and maps to that
    reason, and no keyword earlier in the table occurs: the first keyword in
    table order wins. *)
Theorem detectUpgradeReason_first_keyword_wins :
  forall (msg : string) (r : UpgradeStore.UpgradeReason),
    Api.detectUpgradeReason toLowerCase msg = r ->
    r <> UpgradeStore.general ->
    exists before kw after,
      Api.ERROR_TO_UPGRADE_REASON = (before ++ (kw, r) :: after)%list /\
      Occurs kw (toLowerCase msg) /\
      Forall (fun e => ~ Occurs (fst e) (toLowerCase msg)) before.
Proof. intros msg r; apply firstMatch_hit. Qed.

(** X11.  The keywords "relatórios de funil" and "integração crm" are
    redundant: each contains the keyword that follows it in the table
    ("funil", "crm") with the same reason, so the classification of every
    message is the same without them. *)
Theorem long_form_keywords_are_redundant :
  forall msg : string,
    Api.detectUpgradeReason toLowerCase msg
    = Api.firstMatch Notions.tableWithoutLongForms (toLowerCase msg).
Proof.
  intros msg; unfold Api.detectUpgradeReason.
  change Api.ERROR_TO_UPGRADE_REASON with
    ([ ("limite de leads", UpgradeStore.leads_limit);
       ("limite de prospects", UpgradeStore.leads_limit);
       ("limite de agentes", UpgradeStore.agents_limit);
       ("limite de campanhas", UpgradeStore.campaigns_limit);
       ("whatsapp", UpgradeStore.whatsapp);
       ("api oficial", UpgradeStore.whatsapp_official);
       ("filtros avançados", UpgradeStore.advanced_filters) ]
     ++ ("relatórios de funil", UpgradeStore.funnel_reports)
        :: ("funil", UpgradeStore.funnel_reports)
        :: [ ("comparação de campanhas", UpgradeStore.campaign_comparison);
             ("comparativo", UpgradeStore.campaign_comparison);
             ("integração crm", UpgradeStore.crm_integration);
             ("crm", UpgradeStore.crm_integration);
             ("suporte prioritário", UpgradeStore.priority_support);
             ("sso", UpgradeStore.sso) ])%list.
  rewrite firstMatch_drop_long_form
    by (apply includes_iff_Occurs; reflexivity).
  change (Api.firstMatch _ (toLowerCase msg)) with
    (Api.firstMatch
       ([ ("limite de leads", UpgradeStore.leads_limit);
          ("limite de prospects", UpgradeStore.leads_limit);
          ("limite de agentes", UpgradeStore.agents_limit);
          ("limite de campanhas", UpgradeStore.campaigns_limit);
          ("whatsapp", UpgradeStore.whatsapp);
          ("api oficial", UpgradeStore.whatsapp_official);
          ("filtros avançados", UpgradeStore.advanced_filters);
          ("funil", UpgradeStore.funnel_reports);
          ("comparação de campanhas", UpgradeStore.campaign_comparison);
          ("comparativo", UpgradeStore.campaign_comparison) ]
        ++ ("integração crm", UpgradeStore.crm_integration)
           :: ("crm", UpgradeStore.crm_integration)
           :: [ ("suporte prioritário", UpgradeStore.priority_support);
                ("sso", UpgradeStore.sso) ])%list
       (toLowerCase msg)) at 1.
  rewrite firstMatch_drop_long_form
    by (apply includes_iff_Occurs; reflexivity).
  reflexivity.
Qed.

End ClassificationMore.

Lemma detectUpgradeReason_first_keyword_wins_witness :
  exists before kw after,
    Api.ERROR_TO_UPGRADE_REASON
    = (before ++ (kw, UpgradeStore.whatsapp) :: after)%list /\
    Spec.Occurs kw (Latin.toLowerCase "Limite do WhatsApp") /\
    Forall (fun e => ~ Spec.Occurs (fst e) (Latin.toLowerCase "Limite do WhatsApp")) before.
Proof.
  apply (detectUpgradeReason_first_keyword_wins Latin.toLowerCase "Limite do WhatsApp").
  - reflexivity.
  - discriminate.
Defined.

(** ** The response interceptor *)

Lemma onResponseError_forbidden (toLowerCase : string -> string)
    (detail : option string) (st : UpgradeStore.UpgradeState) :
  Api.onResponseError toLowerCase true (Some 403) detail st =
  {| UpgradeStore.isOpen := true;
     UpgradeStore.context :=
       Some {| UpgradeStore.reason :=
                 Api.detectUpgradeReason toLowerCase (Js.or_else detail "");
               UpgradeStore.currentValue := None;
               UpgradeStore.limitValue := None;
               UpgradeStore.featureName := None;
               UpgradeStore.suggestedPlan :=
                 Some (UpgradeStore.MINIMUM_PLAN_FOR_FEATURE
                         (Api.detectUpgradeReason toLowerCase (Js.or_else detail "")));
               UpgradeStore.customMessage := Some (Js.or_else detail "") |} |}.
Proof.
  unfold Api.onResponseError, UpgradeStore.openUpgradeModal.
  cbn [negb UpgradeStore.reason UpgradeStore.suggestedPlan UpgradeStore.currentValue
       UpgradeStore.limitValue UpgradeStore.featureName UpgradeStore.customMessage].
  now rewrite (or_else_some _ _ (minimum_plan_nonempty _)).
Qed.

Section InterceptorProperties.

Import Interceptors.

Variable toLowerCase : string -> string.
Variable refresh : string -> option (string * string).

Let handle := onRejected toLowerCase refresh.

Lemma expire_logged_out (w : World) :
  auth (expire w) = AuthStore.initialState /\
  location (expire w) = Some "/login?expired=true" /\
  upgrade (expire w) = upgrade w.
Proof. repeat split. Qed.

(** X12.  A 403 on a request settles as a rejection, leaves the session and
    the window where they are, and opens the upgrade modal with the reason
    detected in the detail text, that text as the custom message, the
    table's plan for the reason and no counters.  When the response has no
    detail (or an empty one) and lower-casing keeps the empty string empty,
    the reason is [general] and the plan starter. *)
Theorem forbidden_opens_the_modal :
  forall (req : Request) (detail : option string) (w : World),
    let result := handle (Some req) (Some 403) detail w in
    let text := Js.or_else detail "" in
    fst result = Rejected /\
    auth (snd result) = auth w /\
    location (snd result) = location w /\
    upgrade (snd result) =
      {| UpgradeStore.isOpen := true;
         UpgradeStore.context :=
           Some {| UpgradeStore.reason := Api.detectUpgradeReason toLowerCase text;
                   UpgradeStore.currentValue := None;
                   UpgradeStore.limitValue := None;
                   UpgradeStore.featureName := None;
                   UpgradeStore.suggestedPlan :=
                     Some (UpgradeStore.MINIMUM_PLAN_FOR_FEATURE
                             (Api.detectUpgradeReason toLowerCase text));
                   UpgradeStore.customMessage := Some text |} |} /\
    (toLowerCase "" = "" -> text = "" ->
     Api.detectUpgradeReason toLowerCase text = UpgradeStore.general /\
     UpgradeStore.MINIMUM_PLAN_FOR_FEATURE (Api.detectUpgradeReason toLowerCase text)
     = "starter").
Proof.
  intros req detail w result text.
  unfold result, handle, onRejected; cbn [Z.eqb Pos.eqb fst snd auth location upgrade].
  split; [reflexivity |]. split; [reflexivity |]. split; [reflexivity |].
  split; [apply onResponseError_forbidden |].
  intros Hlower Htext; unfold Api.detectUpgradeReason.
  rewrite Htext, Hlower; split; reflexivity.
Qed.

(** X13.  The handler opens the upgrade modal for a 403 only, and touches
    the session and the window for a 401 only; an error without request
    configuration changes nothing at all. *)
Theorem handler_frames :
  forall (config : option Request) (status : option Z) (detail : option string)
         (w : World),
    let result := handle config status detail w in
    (status <> Some 403 -> upgrade (snd result) = upgrade w) /\
    (status <> Some 401 ->
     auth (snd result) = auth w /\ location (snd result) = location w) /\
    (config = None -> result = (Rejected, w)).
Proof.
  intros config status detail w result; unfold result, handle, onRejected.
  destruct config as [req|]; [| repeat split].
  destruct status as [s|]; [| repeat split].
  destruct (Z.eqb_spec s 403) as [->|H403].
  { split; [intros H; now elim H |]. split; [| discriminate]. intros _; split; reflexivity. }
  destruct (Z.eqb_spec s 401) as [->|H401]; [| repeat split].
  split.
  - intros _; cbn [andb].
    destruct (_retry req); cbn [negb]; [reflexivity |].
    destruct (AuthStore.refreshToken (auth w)) as [rt|]; [| reflexivity].
    destruct (Js.truthy_string rt); [| reflexivity].
    destruct (refresh rt) as [[a r]|]; reflexivity.
  - split; [intros H; now elim H | discriminate].
Qed.

(** X14.  A 401 on a request ends in one of two ways.  Either the request
    had not been retried, the session held a non-empty refresh token and the
    refresh call answered: then the new tokens are stored, the session is
    authenticated, the window stays, and the request is sent again, marked
    as retried, with the new access token as bearer.  Or the error is
    rejected, the session is reset to the logged-out state and the window is
    sent to the login page. *)
Theorem unauthorized_refreshes_or_logs_out :
  forall (req : Request) (detail : option string) (w : World),
    let result := handle (Some req) (Some 401) detail w in
    (exists rt access_token refresh_token,
       _retry req = false /\
       AuthStore.refreshToken (auth w) = Some rt /\ rt <> "" /\
       refresh rt = Some (access_token, refresh_token) /\
       fst result = Resent {| _retry := true;
                              Authorization := Some ("Bearer " ++ access_token) |} /\
       auth (snd result)
       = {| AuthStore.user := AuthStore.user (auth w);
            AuthStore.accessToken := Some access_token;
            AuthStore.refreshToken := Some refresh_token;
            AuthStore.isAuthenticated := true |} /\
       location (snd result) = location w)
    \/
    ((fst result = Rejected \/ fst result = RejectedRefresh) /\
     auth (snd result) = AuthStore.initialState /\
     location (snd result) = Some "/login?expired=true").
Proof.
  intros req detail w result; unfold result, handle, onRejected.
  cbn [Z.eqb Pos.eqb andb].
  destruct (_retry req) eqn:Hretry; cbn [negb].
  - right; repeat split; now left.
  - destruct (AuthStore.refreshToken (auth w)) as [rt|] eqn:Hrt;
      [| right; repeat split; now left].
    unfold Js.truthy_string.
    destruct (String.eqb_spec rt "") as [->|Hne]; cbn [negb];
      [right; repeat split; now left |].
    destruct (refresh rt) as [[a r]|] eqn:Hrefresh.
    + left; exists rt, a, r; repeat split; assumption.
    + right; repeat split; now right.
Qed.

(** X15.  There is no second retry: a 401 on a request that is marked as
    retried (as every request the handler sends again is) always rejects,
    logs out and sends the window to the login page, whatever the session
    holds and whatever the refresh call would answer. *)
Theorem retried_request_logs_out :
  forall (req : Request) (detail : option string) (w : World),
    _retry req = true ->
    handle (Some req) (Some 401) detail w = (Rejected, expire w).
Proof.
  intros req detail w Hretry; unfold handle, onRejected.
  cbn [Z.eqb Pos.eqb andb]; now rewrite Hretry.
Qed.

Lemma resent_request_is_marked (config : option Request) (status : option Z)
    (detail : option string) (w : World) (req' : Request) :
  fst (handle config status detail w) = Resent req' -> _retry req' = true.
Proof.
  unfold handle, onRejected.
  destruct config as [req|]; [| discriminate].
  destruct status as [s|]; [| discriminate].
  destruct (s =? 403); [discriminate |].
  destruct (s =? 401); cbn [andb]; [| discriminate].
  destruct (_retry req); cbn [negb]; [discriminate |].
  destruct (AuthStore.refreshToken (auth w)) as [rt|]; [| discriminate].
  destruct (Js.truthy_string rt); [| discriminate].
  destruct (refresh rt) as [[a r]|]; [| discriminate].
  cbn [fst]; intros H; injection H as <-; reflexivity.
Qed.

(** X16.  The request the handler sends again already carries the header
    the request interceptor computes from the refreshed session, so passing
    it through that interceptor changes nothing; and a second 401 on it logs
    the user out. *)
Theorem resent_request_is_consistent :
  forall (config : option Request) (status : option Z) (detail detail' : option string)
         (w : World) (req' : Request),
    fst (handle config status detail w) = Resent req' ->
    let w' := snd (handle config status detail w) in
    (exists token, Authorization req' = Some ("Bearer " ++ token) /\
                   AuthStore.accessToken (auth w') = Some token) /\
    (forall token, AuthStore.accessToken (auth w') = Some token -> token <> "" ->
                   onRequest (auth w') req' = req') /\
    handle (Some req') (Some 401) detail' w' = (Rejected, expire w').
Proof.
  intros config status detail detail' w req' Hres w'.
  pose proof (resent_request_is_marked _ _ _ _ _ Hres) as Hmark.
  assert (Hhdr : exists token, Authorization req' = Some ("Bearer " ++ token) /\
                               AuthStore.accessToken (auth w') = Some token).
  { unfold w'; revert Hres; unfold handle, onRejected.
    destruct config as [req|]; [| discriminate].
    destruct status as [s|]; [| discriminate].
    destruct (s =? 403); [discriminate |].
    destruct (s =? 401); cbn [andb]; [| discriminate].
    destruct (_retry req); cbn [negb]; [discriminate |].
    destruct (AuthStore.refreshToken (auth w)) as [rt|]; [| discriminate].
    destruct (Js.truthy_string rt); [| discriminate].
    destruct (refresh rt) as [[a r]|]; [| discriminate].
    cbn [fst snd]; intros H; injection H as <-.
    exists a; split; reflexivity. }
  split; [exact Hhdr |]. split.
  - intros token Htok Hne.
    destruct Hhdr as [token' [Hh Ht]].
    assert (token' = token) by congruence; subst token'.
    unfold onRequest; rewrite Htok.
    unfold Js.truthy_string.
    destruct (String.eqb_spec token ""); [contradiction |]; cbn [negb].
    destruct req' as [rt hd]; cbn in *; congruence.
  - unfold handle, onRejected; cbn [Z.eqb Pos.eqb andb]; now rewrite Hmark.
Qed.

End InterceptorProperties.

Lemma forbidden_opens_the_modal_witness :
  Api.detectUpgradeReason Latin.toLowerCase (Js.or_else None "") = UpgradeStore.general /\
  UpgradeStore.MINIMUM_PLAN_FOR_FEATURE
    (Api.detectUpgradeReason Latin.toLowerCase (Js.or_else None "")) = "starter".
Proof.
  apply (forbidden_opens_the_modal Latin.toLowerCase Notions.sampleRefresh
           Notions.freshRequest None (Notions.worldOn "free"));
    reflexivity.
Defined.

Lemma handler_frames_witness :
  Interceptors.upgrade
    (snd (Interceptors.onRejected Latin.toLowerCase Notions.sampleRefresh
            (Some Notions.freshRequest) (Some 500) None (Notions.worldOn "free")))
  = UpgradeStore.initialState.
Proof.
  apply (handler_frames Latin.toLowerCase Notions.sampleRefresh
           (Some Notions.freshRequest) (Some 500) None (Notions.worldOn "free")).
  discriminate.
Defined.

Lemma retried_request_logs_out_witness :
  Interceptors.onRejected Latin.toLowerCase Notions.sampleRefresh
    (Some {| Interceptors._retry := true;
             Interceptors.Authorization := Some "Bearer access2" |})
    (Some 401) None (Notions.worldOn "pro")
  = (Interceptors.Rejected, Interceptors.expire (Notions.worldOn "pro")).
Proof.
  apply (retried_request_logs_out Latin.toLowerCase Notions.sampleRefresh); reflexivity.
Defined.

Lemma resent_request_is_consistent_witness :
  Interceptors.onRejected Latin.toLowerCase Notions.sampleRefresh
    (Some {| Interceptors._retry := true;
             Interceptors.Authorization := Some "Bearer access2" |})
    (Some 401) None
    (snd (Interceptors.onRejected Latin.toLowerCase Notions.sampleRefresh
            (Some Notions.freshRequest) (Some 401) None (Notions.worldOn "pro")))
  = (Interceptors.Rejected,
     Interceptors.expire
       (snd (Interceptors.onRejected Latin.toLowerCase Notions.sampleRefresh
               (Some Notions.freshRequest) (Some 401) None (Notions.worldOn "pro")))).
Proof.
  apply (resent_request_is_consistent Latin.toLowerCase Notions.sampleRefresh
           (Some Notions.freshRequest) (Some 401) None None (Notions.worldOn "pro")
           {| Interceptors._retry := true;
              Interceptors.Authorization := Some "Bearer access2" |}).
  reflexivity.
Defined.

(** ** The entitlement table of the auth store *)

Section Entitlements.

Import UpgradeStore Spec Notions.

Lemma PLAN_FEATURES_tier (t : PlanTier) :
  AuthStore.PLAN_FEATURES (tier_id t) =
  Some match t with
       | free => AuthStore.free_features
       | starter => AuthStore.starter_features
       | pro => AuthStore.pro_features
       | scale => AuthStore.scale_features
       end.
Proof. destruct t; reflexivity. Qed.

Lemma PLAN_FEATURES_absent (p : string) :
  ~ In p planOrder -> AuthStore.PLAN_FEATURES p = None.
Proof.
  intros Hnot; unfold AuthStore.PLAN_FEATURES.
  repeat match goal with
         | |- context [String.eqb p ?k] =>
             destruct (String.eqb_spec p k) as [->|_];
             [elim Hnot; simpl; tauto |]
         end.
  reflexivity.
Qed.

(** X17.  [PLAN_FEATURES] is monotone.  Between a user on a tier and a user
    on any tier above it, whatever [hasFeature] grants the first it grants
    the second, and each of the three limits of the higher tier is
    unlimited, or the same number or a larger one. *)
Theorem PLAN_FEATURES_monotone :
  forall (t1 t2 : PlanTier) (s1 s2 : AuthStore.AuthState) (u1 u2 : AuthStore.User),
    ordinal (tier_id t1) < ordinal (tier_id t2) ->
    AuthStore.user s1 = Some u1 -> AuthStore.plan_tier u1 = tier_id t1 ->
    AuthStore.user s2 = Some u2 -> AuthStore.plan_tier u2 = tier_id t2 ->
    (forall k : AuthStore.FeatureKey,
       AuthStore.hasFeature k s1 = true -> AuthStore.hasFeature k s2 = true) /\
    (forall res : PlanCatalog.Resource,
       exists a b : PlanCatalog.Quota,
         limitAt res (tier_id t1) = Some a /\
         limitAt res (tier_id t2) = Some b /\
         never_stricter a b).
Proof.
  intros t1 t2 s1 s2 u1 u2 Hlt Hs1 Hu1 Hs2 Hu2.
  rewrite !ordinal_tier_id in Hlt.
  split.
  - intros k; unfold AuthStore.hasFeature.
    rewrite Hs1, Hs2, Hu1, Hu2, !PLAN_FEATURES_tier.
    destruct t1, t2; try lia; destruct k; vm_compute;
      intros H; solve [reflexivity | discriminate H].
  - intros res.
    destruct t1, t2; try lia; destruct res;
      (eexists; eexists; split; [reflexivity |]; split; [reflexivity |];
       apply quota_leb_never_stricter; reflexivity).
Qed.

Lemma PLAN_FEATURES_monotone_witness :
  AuthStore.hasFeature AuthStore.F_funnel_reports (sessionOn "pro") = true.
Proof.
  assert (Hlt : ordinal (tier_id starter) < ordinal (tier_id pro)) by reflexivity.
  destruct (PLAN_FEATURES_monotone starter pro (sessionOn "starter") (sessionOn "pro")
              (userOn "starter") (userOn "pro") Hlt eq_refl eq_refl eq_refl eq_refl)
    as [Hflags _].
  exact (Hflags AuthStore.F_funnel_reports eq_refl).
Defined.

(** X18.  The plan table of the selection modal displays what
    [PLAN_FEATURES] grants: for every tier the three limits read off the
    display text are the numeric limits of [PLAN_FEATURES] (with -1 shown as
    unlimited), and each of the eight lines that display a flag is included
    exactly when the flag is on. *)
Theorem plan_table_matches_PLAN_FEATURES :
  forall t : PlanTier,
    (forall res : PlanCatalog.Resource,
       PlanCatalog.quotaAt res (tier_id t) = limitAt res (tier_id t)) /\
    (forall (f : string) (r : UpgradeReason),
       displayedFlag f = Some r ->
       PlanCatalog.getPlanFeatureStatus (tier_id t) f = flagAt (tier_id t) r).
Proof.
  intros t; split.
  - intros res; destruct t, res; reflexivity.
  - intros f r; unfold displayedFlag.
    repeat match goal with
           | |- context [String.eqb f ?k] =>
               destruct (String.eqb_spec f k) as [->|_];
               [intros H; injection H as <-; destruct t; reflexivity |]
           end.
    discriminate.
Qed.

Lemma plan_table_matches_PLAN_FEATURES_witness :
  PlanCatalog.getPlanFeatureStatus "starter" "WhatsApp (Simulação)"
  = flagAt "starter" whatsapp.
Proof.
  apply (proj2 (plan_table_matches_PLAN_FEATURES starter) "WhatsApp (Simulação)" whatsapp).
  reflexivity.
Defined.

(** X19.  For each of the eight feature reasons the plan of the
    reason-to-plan table is the lowest tier that has the feature: a tier has
    the flag on in [PLAN_FEATURES] iff it is at or above that plan. *)
Theorem minimum_plan_is_lowest_with_feature :
  forall (r : UpgradeReason) (t : PlanTier),
    isFeatureReason r = true ->
    (flagAt (tier_id t) r = true <->
     ordinal (MINIMUM_PLAN_FOR_FEATURE r) <= ordinal (tier_id t)).
Proof.
  intros r t Hr.
  destruct r; try discriminate Hr; destruct t; vm_compute;
    split; intros H; solve [reflexivity | discriminate H | now elim H].
Qed.

Lemma minimum_plan_is_lowest_with_feature_witness :
  flagAt "pro" crm_integration = true <->
  ordinal (MINIMUM_PLAN_FOR_FEATURE crm_integration) <= ordinal "pro".
Proof.
  apply (minimum_plan_is_lowest_with_feature crm_integration pro); reflexivity.
Defined.

(** X20.  For a feature reason the plan the modal recommends always has
    the feature, whatever the current plan (a known tier or any other
    string). *)
Theorem suggested_plan_has_the_feature :
  forall (p : string) (r : UpgradeReason),
    isFeatureReason r = true ->
    flagAt (getSuggestedPlan p r) r = true.
Proof.
  intros p r Hr.
  destruct (plan_cases p) as [-> | [-> | [-> | [-> | Hnot]]]].
  1-4: destruct r; try discriminate Hr; reflexivity.
  rewrite (getSuggestedPlan_absent p r Hnot).
  destruct r; try discriminate Hr; reflexivity.
Qed.

Lemma suggested_plan_has_the_feature_witness :
  flagAt (getSuggestedPlan "free" whatsapp_official) whatsapp_official = true.
Proof.
  apply (suggested_plan_has_the_feature "free" whatsapp_official); reflexivity.
Defined.

(** X21.  For a quota reason the plan suggested to a user below scale has a
    strictly larger limit of the blocked resource in [PLAN_FEATURES], with
    one exception: for the agents limit of a free user the suggestion is
    starter, whose limit of agents is the same as that of free. *)
Theorem suggested_plan_raises_the_limit :
  forall (t : PlanTier) (res : PlanCatalog.Resource),
    t <> scale ->
    exists a b : PlanCatalog.Quota,
      limitAt res (tier_id t) = Some a /\
      limitAt res (getSuggestedPlan (tier_id t) (reasonOfResource res)) = Some b /\
      ((res = PlanCatalog.Agents /\ t = free) -> a = b) /\
      (~ (res = PlanCatalog.Agents /\ t = free) -> strictly_larger a b).
Proof.
  intros t res Ht.
  destruct t; try (now elim Ht); destruct res;
    (eexists; eexists; split; [reflexivity |]; split; [reflexivity |]; split;
     [ intros [H1 H2]; solve [discriminate H1 | discriminate H2 | reflexivity]
     | intros H; solve [ vm_compute; reflexivity
                       | exact I
                       | elim H; split; reflexivity ] ]).
Qed.

Lemma suggested_plan_raises_the_limit_witness :
  exists a b : PlanCatalog.Quota,
    limitAt PlanCatalog.Agents "free" = Some a /\
    limitAt PlanCatalog.Agents (getSuggestedPlan "free" agents_limit) = Some b /\
    a = b.
Proof.
  assert (Ht : free <> scale) by discriminate.
  destruct (suggested_plan_raises_the_limit free PlanCatalog.Agents Ht)
    as [a [b [Ha [Hb [Hsame _]]]]].
  exists a, b; split; [exact Ha |]; split; [exact Hb |].
  apply Hsame; split; reflexivity.
Defined.

(** X22.  [hasFeature] answers false when nobody is logged in and when the
    user's tier is not one of the four of the table; asked about one of the
    three limits it answers true on every tier of the table. *)
Theorem hasFeature_edges :
  forall (k : AuthStore.FeatureKey) (s : AuthStore.AuthState),
    (AuthStore.user s = None -> AuthStore.hasFeature k s = false) /\
    (forall u, AuthStore.user s = Some u -> ~ In (AuthStore.plan_tier u) planOrder ->
               AuthStore.hasFeature k s = false) /\
    (forall u t, AuthStore.user s = Some u -> AuthStore.plan_tier u = tier_id t ->
                 isLimitKey k = true -> AuthStore.hasFeature k s = true).
Proof.
  intros k s; unfold AuthStore.hasFeature; split; [| split].
  - intros ->; reflexivity.
  - intros u -> Hnot; now rewrite (PLAN_FEATURES_absent _ Hnot).
  - intros u t -> -> Hk; rewrite PLAN_FEATURES_tier.
    destruct k; try discriminate Hk; destruct t; reflexivity.
Qed.

Lemma hasFeature_edges_witness :
  AuthStore.hasFeature AuthStore.F_sso AuthStore.initialState = false /\
  AuthStore.hasFeature AuthStore.F_agents (sessionOn "free") = true.
Proof.
  split.
  - apply (hasFeature_edges AuthStore.F_sso AuthStore.initialState); reflexivity.
  - apply (hasFeature_edges AuthStore.F_agents (sessionOn "free"))
      with (u := userOn "free") (t := free); reflexivity.
Defined.

Lemma stepAuth_invariant (a : AuthAction) (s : AuthStore.AuthState) :
  auth_invariant s -> auth_invariant (stepAuth a s).
Proof.
  unfold auth_invariant; destruct a; simpl; intros H.
  - exact H.
  - split; [intros _; split; discriminate | reflexivity].
  - split; [intros _; split; discriminate | reflexivity].
  - split; [discriminate | intros [H1 _]; now elim H1].
Qed.

(** X23.  After any run of actions of the auth store from its initial
    state, the session counts as authenticated exactly when both tokens are
    stored. *)
Theorem auth_store_invariant :
  forall acts : list AuthAction,
    auth_invariant (runAuth acts AuthStore.initialState).
Proof.
  intros acts; unfold runAuth.
  induction acts as [|a acts IH] using rev_ind.
  - split; [discriminate | intros [H _]; now elim H].
  - rewrite fold_left_app; simpl; now apply stepAuth_invariant.
Qed.

(** X24.  The tier the getters work with is never empty: it is free when
    nobody is logged in or the user's tier is empty.  For such a session
    the modal recommends exactly the plan of the reason-to-plan table. *)
Theorem free_by_default :
  forall (s : AuthStore.AuthState) (st : UpgradeState) (ctx : UpgradeContext),
    AuthStore.getPlanTier s <> "" /\
    (AuthStore.user s = None -> AuthStore.getPlanTier s = "free") /\
    (AuthStore.getPlanTier s = "free" -> context st = Some ctx ->
     UpgradeModal.recommendedPlan s st = Some (MINIMUM_PLAN_FOR_FEATURE (reason ctx))).
Proof.
  intros s st ctx; split; [| split].
  - unfold AuthStore.getPlanTier; apply or_else_nonempty; discriminate.
  - intros H; unfold AuthStore.getPlanTier; now rewrite H.
  - intros Hfree Hctx; unfold UpgradeModal.recommendedPlan.
    rewrite Hctx, Hfree; f_equal.
    destruct (reason ctx); reflexivity.
Qed.

Lemma free_by_default_witness :
  UpgradeModal.recommendedPlan AuthStore.initialState
    (showAgentsLimitReached 1 1 initialState)
  = Some "starter".
Proof.
  destruct (free_by_default AuthStore.initialState
              (showAgentsLimitReached 1 1 initialState)
              {| reason := agents_limit; currentValue := Some 1; limitValue := Some 1;
                 featureName := None; suggestedPlan := Some "pro";
                 customMessage := None |}) as [_ [Hfree Hrec]].
  exact (Hrec (Hfree eq_refl) eq_refl).
Defined.

End Entitlements.

(** ** The tag lists of the campaign form *)

Example addHashtag_examples :
  CampaignCreate.addHashtag Latin.trim "  #vendas " ["marketing"]
  = (["marketing"; "vendas"], "") /\
  CampaignCreate.addHashtag Latin.trim "marketing" ["marketing"] = (["marketing"], "") /\
  CampaignCreate.addHashtag Latin.trim "   " ["marketing"] = (["marketing"], "   ").
Proof. repeat split; reflexivity. Qed.

Section TagLists.

Import CampaignCreate.

Lemma arrayIncludes_In (l : list string) (x : string) :
  arrayIncludes l x = true <-> In x l.
Proof.
  unfold arrayIncludes; rewrite existsb_exists; split.
  - intros [y [Hin Heq]]; apply String.eqb_eq in Heq; now subst.
  - intros Hin; exists x; split; [exact Hin | apply String.eqb_refl].
Qed.

Lemma arrayIncludes_false (l : list string) (x : string) :
  arrayIncludes l x = false <-> ~ In x l.
Proof.
  rewrite <- arrayIncludes_In; destruct (arrayIncludes l x); split; congruence.
Qed.

Lemma NoDup_snoc (l : list string) (x : string) :
  NoDup l -> ~ In x l -> NoDup (l ++ [x]).
Proof.
  induction 1 as [|y l Hy Hnd IH]; simpl; intros Hx.
  - constructor; [intros [] | constructor].
  - constructor.
    + rewrite in_app_iff; simpl; intros [H | [H | []]]; [now elim Hy |].
      subst; apply Hx; now left.
    + apply IH; tauto.
Qed.

(** Appending an element unless it is there already. *)
Lemma add_unless_present (l : list string) (x : string) :
  let l' := if negb (arrayIncludes l x) then (l ++ [x])%list else l in
  (NoDup l -> NoDup l') /\
  (forall y, In y l' <-> In y l \/ y = x) /\
  (In x l -> l' = l) /\
  (~ In x l -> l' = (l ++ [x])%list).
Proof.
  intros l'; unfold l'.
  destruct (arrayIncludes l x) eqn:E; cbn [negb].
  - apply arrayIncludes_In in E.
    split; [auto |]. split; [| split; [reflexivity | intros H; now elim H]].
    intros y; split; [tauto | intros [H | ->]; assumption].
  - apply arrayIncludes_false in E.
    split; [| split; [| split; [intros H; now elim E | reflexivity]]].
    + intros Hnd; now apply NoDup_snoc.
    + intros y; rewrite in_app_iff; simpl; intuition auto.
Qed.

Lemma filter_absent (l : list string) (x : string) :
  ~ In x l -> filter (fun h => negb (String.eqb h x)) l = l.
Proof.
  induction l as [|y l IH]; simpl; intros Hnot; [reflexivity |].
  destruct (String.eqb_spec y x) as [->|_]; simpl.
  - elim Hnot; now left.
  - f_equal; apply IH; tauto.
Qed.

Variable trim : string -> string.

(** X25.  Adding a hashtag or a keyword keeps the list free of duplicates
    and keeps every entry it had.  An input that is blank after trimming
    changes neither the list nor the input box; any other input clears the
    box and leaves the list holding the new entry (the trimmed input, for a
    hashtag without one leading hash sign) exactly once more than before if
    it was absent. *)
Theorem adding_keeps_lists_duplicate_free :
  forall (input : string) (l : list string),
    let tag := stripHash (trim input) in
    let kw := trim input in
    (NoDup l -> NoDup (fst (addHashtag trim input l)) /\
                NoDup (fst (addKeyword trim input l))) /\
    (forall y, In y l -> In y (fst (addHashtag trim input l)) /\
                         In y (fst (addKeyword trim input l))) /\
    (trim input = "" ->
     addHashtag trim input l = (l, input) /\ addKeyword trim input l = (l, input)) /\
    (trim input <> "" ->
     snd (addHashtag trim input l) = "" /\ snd (addKeyword trim input l) = "" /\
     In tag (fst (addHashtag trim input l)) /\
     In kw (fst (addKeyword trim input l)) /\
     (~ In tag l -> fst (addHashtag trim input l) = (l ++ [tag])%list) /\
     (~ In kw l -> fst (addKeyword trim input l) = (l ++ [kw])%list)).
Proof.
  intros input l tag kw.
  destruct (add_unless_present l tag) as [Hnd1 [Hin1 [_ Hnew1]]].
  destruct (add_unless_present l kw) as [Hnd2 [Hin2 [_ Hnew2]]].
  subst tag kw; unfold addHashtag, addKeyword, Js.truthy_string.
  destruct (String.eqb_spec (trim input) "") as [Hblank|Hfull]; cbn [negb fst snd].
  - split; [intros H; now split |].
    split; [intros y H; now split |].
    split; [intros _; now split |].
    intros H; now elim H.
  - split; [intros H; split; [now apply Hnd1 | now apply Hnd2] |].
    split; [| split; [intros H; now elim Hfull |]].
    + intros y Hy; split; [apply Hin1 | apply Hin2]; now left.
    + intros _; split; [reflexivity |]. split; [reflexivity |].
      split; [apply Hin1; now right |].
      split; [apply Hin2; now right |].
      split; assumption.
Qed.

(** X26.  Removing a hashtag or a keyword deletes every occurrence of it
    and nothing else, and leaves a list without it as it is; removing an
    entry right after adding it to a list that did not have it gives the
    list back. *)
Theorem removing_undoes_adding :
  forall (input x : string) (l : list string),
    ~ In x (removeHashtag x l) /\
    (forall y, y <> x -> (In y (removeHashtag x l) <-> In y l)) /\
    (~ In x l -> removeHashtag x l = l) /\
    removeKeyword x l = removeHashtag x l /\
    (trim input <> "" -> ~ In (stripHash (trim input)) l ->
     removeHashtag (stripHash (trim input)) (fst (addHashtag trim input l)) = l) /\
    (trim input <> "" -> ~ In (trim input) l ->
     removeKeyword (trim input) (fst (addKeyword trim input l)) = l).
Proof.
  intros input x l.
  assert (Hundo : forall z, ~ In z l ->
            filter (fun h => negb (String.eqb h z)) (l ++ [z]) = l).
  { intros z Hz; rewrite filter_app, (filter_absent l z Hz); simpl.
    rewrite String.eqb_refl; simpl; apply app_nil_r. }
  split; [| split; [| split; [| split; [| split]]]].
  - unfold removeHashtag; rewrite filter_In, negb_true_iff, String.eqb_neq.
    intros [_ H]; now elim H.
  - intros y Hy; unfold removeHashtag.
    rewrite filter_In, negb_true_iff, String.eqb_neq; tauto.
  - apply filter_absent.
  - reflexivity.
  - intros Hfull Hnew; unfold addHashtag, Js.truthy_string.
    destruct (String.eqb_spec (trim input) ""); [contradiction |]; cbn [negb fst].
    apply arrayIncludes_false in Hnew; rewrite Hnew; cbn [negb].
    apply Hundo; now apply arrayIncludes_false.
  - intros Hfull Hnew; unfold addKeyword, Js.truthy_string.
    destruct (String.eqb_spec (trim input) ""); [contradiction |]; cbn [negb fst].
    apply arrayIncludes_false in Hnew; rewrite Hnew; cbn [negb].
    apply Hundo; now apply arrayIncludes_false.
Qed.

(** X27.  A list of keywords never gains an empty entry.  A list of
    hashtags gains one exactly when the trimmed input is a lone hash
    sign. *)
Theorem empty_tag_only_from_lone_hash :
  forall (input : string) (l : list string),
    ~ In "" l ->
    ~ In "" (fst (addKeyword trim input l)) /\
    (In "" (fst (addHashtag trim input l)) <-> trim input = "#").
Proof.
  intros input l Hl.
  destruct (add_unless_present l (trim input)) as [_ [Hin2 _]].
  destruct (add_unless_present l (stripHash (trim input))) as [_ [Hin1 _]].
  unfold addHashtag, addKeyword, Js.truthy_string.
  destruct (String.eqb_spec (trim input) "") as [Hblank|Hfull]; cbn [negb fst].
  - split; [exact Hl |]. rewrite Hblank; split; [tauto | discriminate].
  - split.
    + rewrite Hin2; intros [H | H]; [tauto | congruence].
    + rewrite Hin1; split.
      * intros [H | H]; [tauto |].
        destruct (trim input) as [|c rest]; [now elim Hfull |].
        simpl in H; destruct (Ascii.eqb_spec c "#") as [->|_]; [| discriminate H].
        now subst rest.
      * intros ->; right; reflexivity.
Qed.

End TagLists.

Lemma adding_keeps_lists_duplicate_free_witness :
  NoDup (fst (CampaignCreate.addHashtag Latin.trim " #vendas" ["marketing"])) /\
  fst (CampaignCreate.addKeyword Latin.trim "dentista " ["advogado"])
  = ["advogado"; "dentista"].
Proof.
  split.
  - apply (adding_keeps_lists_duplicate_free Latin.trim " #vendas" ["marketing"]).
    repeat constructor; simpl; tauto.
  - apply (adding_keeps_lists_duplicate_free Latin.trim "dentista " ["advogado"]).
    + discriminate.
    + simpl; intros [H | H]; [discriminate H | exact H].
Defined.

Lemma removing_undoes_adding_witness :
  CampaignCreate.removeHashtag "vendas"
    (fst (CampaignCreate.addHashtag Latin.trim "#vendas" ["marketing"]))
  = ["marketing"].
Proof.
  destruct (removing_undoes_adding Latin.trim "#vendas" "vendas" ["marketing"])
    as [_ [_ [_ [_ [H _]]]]].
  apply H.
  - discriminate.
  - simpl; intros [E | E]; [discriminate E | exact E].
Defined.

Lemma empty_tag_only_from_lone_hash_witness :
  In "" (fst (CampaignCreate.addHashtag Latin.trim " # " ["marketing"])).
Proof.
  apply (empty_tag_only_from_lone_hash Latin.trim " # " ["marketing"]).
  - simpl; intros [E | E]; [discriminate E | exact E].
  - reflexivity.
Defined.

(** ** What the modal recommends after a feature gate *)

Section FeatureGateRecommendation.

Import UpgradeStore.

(** X28.  When [checkFeature] blocks, the plan the modal then recommends
    does not depend on the feature nor on the plan the check suggested: the
    stored reason is [general], so for a user on a known tier the modal
    recommends the tier right above the current one (scale for a scale
    user). *)
Theorem feature_gate_recommends_next_tier :
  forall (toUpperCase : string -> string) (u : PlanLimits.UsageLimits)
         (feature : PlanLimits.UsageKey) (featureName plan : string)
         (st : UpgradeState) (s : AuthStore.AuthState) (t : PlanTier),
    fst (PlanLimits.checkFeature toUpperCase (Some u) feature featureName plan st) = false ->
    AuthStore.getPlanTier s = tier_id t ->
    UpgradeModal.recommendedPlan s
      (snd (PlanLimits.checkFeature toUpperCase (Some u) feature featureName plan st))
    = Some (match getNextPlan (tier_id t) with
            | Some next => next
            | None => "scale"
            end).
Proof.
  intros toUpperCase u feature name plan st s t Hblocked Htier.
  unfold PlanLimits.checkFeature in *.
  destruct (Js.truthy (PlanLimits.get u feature)); [discriminate Hblocked |].
  unfold UpgradeModal.recommendedPlan; cbn [negb snd openUpgradeModal context reason].
  rewrite Htier; destruct t; reflexivity.
Qed.

End FeatureGateRecommendation.

Lemma feature_gate_recommends_next_tier_witness :
  UpgradeModal.recommendedPlan (Notions.sessionOn "free")
    (snd (PlanLimits.checkWhatsAppOfficial Latin.toUpperCase
            (Some (Spec.freeSnapshot 0 0 0)) UpgradeStore.initialState))
  = Some "starter" /\
  Notions.flagAt "starter" UpgradeStore.whatsapp_official = false.
Proof.
  split; [| reflexivity].
  apply (feature_gate_recommends_next_tier Latin.toUpperCase (Spec.freeSnapshot 0 0 0)
           PlanLimits.K_whatsapp_official_api "API Oficial do WhatsApp" "pro"
           UpgradeStore.initialState (Notions.sessionOn "free") UpgradeStore.free);
    reflexivity.
Defined.
